(** * serve-web.py: a static file server for previewing the built site

    The script is a few lines of glue over the Python runtime: it creates
    the directory [dist], binds a [socketserver.TCPServer] on port 8000
    with a [SimpleHTTPRequestHandler] rooted at [dist], prints three lines
    and serves until interrupted.

    The development has two layers.
    - The runtime the script calls ([os], [posixpath], [socketserver],
      [http.server] of CPython 3.11 on a POSIX system), embedded function
      by function under the names the library uses.
    - The script itself, module [ServeWeb], embedded statement by
      statement.

    Python [str] and [bytes] values are [string]s (sequences of 8-bit
    characters), Python [int]s are [Z]. *)

From Stdlib Require Import String Ascii ZArith List Bool Lia DecimalString.
From Stdlib Require Import Permutation Sorted.
Import ListNotations.
Open Scope string_scope.
Open Scope Z_scope.

Set Warnings "-register-all".

(** ** Python string methods *)

Module PyStr.

Definition slash : ascii := "/"%char.

(** [s.startswith(p)] *)
Definition startswith (s p : string) : bool := String.prefix p s.

(** [s.endswith(c)] for a one-character suffix. *)
Fixpoint endswith_char (s : string) (c : ascii) : bool :=
  match s with
  | EmptyString => false
  | String a EmptyString => Ascii.eqb a c
  | String _ s' => endswith_char s' c
  end.

(** [p in s] *)
Definition contains (s p : string) : bool :=
  match String.index 0 p s with
  | Some _ => true
  | None => false
  end.

(** [s.split(c)]: every occurrence of [c] separates two pieces. *)
Fixpoint split (c : ascii) (s : string) : list string :=
  match s with
  | EmptyString => [EmptyString]
  | String a s' =>
      if Ascii.eqb a c then EmptyString :: split c s'
      else match split c s' with
           | [] => [String a EmptyString]
           | w :: ws => String a w :: ws
           end
  end.

(** [s.split(c, 1)[0]]: the part before the first [c]. *)
Fixpoint before (c : ascii) (s : string) : string :=
  match s with
  | EmptyString => EmptyString
  | String a s' => if Ascii.eqb a c then EmptyString else String a (before c s')
  end.

(** [c.join(ws)] *)
Fixpoint join (c : ascii) (ws : list string) : string :=
  match ws with
  | [] => EmptyString
  | [w] => w
  | w :: ws' => w ++ String c (join c ws')
  end.

(** Python's ASCII white space: space, tab, line feed, vertical tab,
    form feed, carriage return. *)
Definition isspace (a : ascii) : bool :=
  let n := nat_of_ascii a in
  (Nat.eqb n 32 || (Nat.leb 9 n && Nat.leb n 13))%bool.

(** [s.rstrip()] *)
Fixpoint rstrip (s : string) : string :=
  match s with
  | EmptyString => EmptyString
  | String a s' =>
      match rstrip s' with
      | EmptyString => if isspace a then EmptyString else String a EmptyString
      | t => String a t
      end
  end.

(** [s.rstrip('/')] *)
Fixpoint rstrip_slash (s : string) : string :=
  match s with
  | EmptyString => EmptyString
  | String a s' =>
      match rstrip_slash s' with
      | EmptyString => if Ascii.eqb a slash then EmptyString else String a EmptyString
      | t => String a t
      end
  end.

(** [str(n)] and the [{n}] field of an f-string, for an [int]. *)
Definition str (n : Z) : string := NilZero.string_of_int (Z.to_int n).

(** The value of a hexadecimal digit, as [bytes.fromhex] reads it. *)
Definition hexval (a : ascii) : option nat :=
  let n := nat_of_ascii a in
  if (Nat.leb 48 n && Nat.leb n 57)%bool then Some (n - 48)%nat
  else if (Nat.leb 65 n && Nat.leb n 70)%bool then Some (n - 55)%nat
  else if (Nat.leb 97 n && Nat.leb n 102)%bool then Some (n - 87)%nat
  else None.

(** [urllib.parse.unquote]: every [%XY] with two hexadecimal digits
    becomes the byte it names; a [%] not followed by two such digits
    stays.  The strings of this model are byte strings, so the result is
    the percent-decoded byte sequence, which is what the file system
    receives for a request path written in ASCII. *)
Fixpoint unquote (s : string) : string :=
  match s with
  | EmptyString => EmptyString
  | String a s' =>
      if Ascii.eqb a "%"%char then
        match s' with
        | String h (String l rest) =>
            match hexval h, hexval l with
            | Some x, Some y => String (ascii_of_nat (16 * x + y)) (unquote rest)
            | _, _ => String a (unquote s')
            end
        | _ => String a (unquote s')
        end
      else String a (unquote s')
  end.

End PyStr.

(** ** The file system below the working directory *)

Module Fs.

(** A regular file has its bytes, its modification time in whole seconds
    since the epoch, and whether the server process may read it.  A
    directory has its entries by name, and whether the process may list
    it and may create entries in it. *)
Inductive node : Type :=
| File (content : string) (mtime : Z) (readable : bool)
| Dir (entries : list (string * node)) (listable writable : bool).

Inductive errno : Type :=
| EACCES | EEXIST | ENOENT | ENOTDIR | EISDIR | EADDRINUSE.

Fixpoint assoc (name : string) (es : list (string * node)) : option node :=
  match es with
  | [] => None
  | (k, n) :: es' => if String.eqb k name then Some n else assoc name es'
  end.

Fixpoint replace (name : string) (n : node) (es : list (string * node))
  : list (string * node) :=
  match es with
  | [] => []
  | (k, m) :: es' =>
      if String.eqb k name then (k, n) :: es' else (k, m) :: replace name n es'
  end.

(** Path resolution from the working directory [cwd]: the pieces between
    slashes are followed one by one; an empty piece (a doubled or a
    trailing slash) and [.] stay where they are but need a directory
    there.  Absolute paths and [..] lead out of the modelled tree and
    are not resolved. *)
Fixpoint walk (n : node) (comps : list string) : option node :=
  match comps with
  | [] => Some n
  | c :: cs =>
      match n with
      | File _ _ _ => None
      | Dir es _ _ =>
          if (String.eqb c "" || String.eqb c ".")%bool then walk n cs
          else if String.eqb c ".." then None
          else match assoc c es with
               | Some n' => walk n' cs
               | None => None
               end
      end
  end.

Definition stat (cwd : node) (path : string) : option node :=
  if (String.eqb path "" || PyStr.startswith path "/")%bool then None
  else walk cwd (PyStr.split PyStr.slash path).

(** [os.path.exists], [os.path.isdir], [os.path.isfile] *)
Definition exists_ (cwd : node) (path : string) : bool :=
  match stat cwd path with Some _ => true | None => false end.

Definition isdir (cwd : node) (path : string) : bool :=
  match stat cwd path with Some (Dir _ _ _) => true | _ => false end.

Definition isfile (cwd : node) (path : string) : bool :=
  match stat cwd path with Some (File _ _ _) => true | _ => false end.

(** [open(path, 'rb')] followed by reading the whole file and
    [os.fstat]: the bytes and the modification time, or the error. *)
Definition open_rb (cwd : node) (path : string) : (string * Z) + errno :=
  match stat cwd path with
  | Some (File c t r) => if r then inl (c, t) else inr EACCES
  | Some (Dir _ _ _) => inr EISDIR
  | None => inr ENOENT
  end.

(** [os.listdir(path)] *)
Definition listdir (cwd : node) (path : string) : list string + errno :=
  match stat cwd path with
  | Some (Dir es l _) => if l then inl (map fst es) else inr EACCES
  | Some (File _ _ _) => inr ENOTDIR
  | None => inr ENOENT
  end.

(** The system call [mkdir]: the new directory is empty, listable and
    writable.  Empty pieces and [.] in the path are skipped. *)
Fixpoint mkdir_at (n : node) (comps : list string) : node + errno :=
  match n with
  | File _ _ _ => inr ENOTDIR
  | Dir es l w =>
      match comps with
      | [] => inr EEXIST
      | c :: cs =>
          if String.eqb c ".." then inr ENOENT
          else
            match assoc c es, cs with
            | Some _, [] => inr EEXIST
            | None, [] =>
                if w then inl (Dir (es ++ [(c, Dir [] true true)]) l w)
                else inr EACCES
            | Some n', _ :: _ =>
                match mkdir_at n' cs with
                | inl n'' => inl (Dir (replace c n'' es) l w)
                | inr e => inr e
                end
            | None, _ :: _ => inr ENOENT
            end
      end
  end.

Definition plain (c : string) : bool :=
  negb (String.eqb c "" || String.eqb c ".").

Definition mkdir (cwd : node) (path : string) : node + errno :=
  if (String.eqb path "" || PyStr.startswith path "/")%bool then inr ENOENT
  else mkdir_at cwd (filter plain (PyStr.split PyStr.slash path)).

End Fs.

(** ** [posixpath] *)

Module PosixPath.

Import PyStr.

(** [p[:i], p[i:]] for [i = p.rfind('/') + 1]. *)
Fixpoint cut_last (p : string) : string * string :=
  match p with
  | EmptyString => (EmptyString, EmptyString)
  | String a p' =>
      let '(h, t) := cut_last p' in
      if negb (String.eqb h "") then (String a h, t)
      else if Ascii.eqb a slash then (String a EmptyString, t)
      else (EmptyString, String a t)
  end.

(** [posixpath.split] *)
Definition split (p : string) : string * string :=
  let '(head, tail) := cut_last p in
  if String.eqb (rstrip_slash head) "" then (head, tail)
  else (rstrip_slash head, tail).

(** [posixpath.dirname] *)
Definition dirname (p : string) : string :=
  let '(h, _) := cut_last p in
  if String.eqb (rstrip_slash h) "" then h else rstrip_slash h.

(** [posixpath.join(a, b)] *)
Definition join (a b : string) : string :=
  if startswith b "/" then b
  else if (String.eqb a "" || endswith_char a slash)%bool then a ++ b
  else a ++ "/" ++ b.

(** One turn of the loop of [normpath] over the pieces. *)
Definition norm_step (initial_slashes : nat) (new_comps : list string)
           (comp : string) : list string :=
  if (String.eqb comp "" || String.eqb comp ".")%bool then new_comps
  else if (negb (String.eqb comp "..")
           || (Nat.eqb initial_slashes 0 && Nat.eqb (length new_comps) 0)
           || (negb (Nat.eqb (length new_comps) 0)
               && String.eqb (last new_comps "") ".."))%bool
       then new_comps ++ [comp]
  else removelast new_comps.

Fixpoint slashes (n : nat) : string :=
  match n with
  | O => EmptyString
  | S n' => String slash (slashes n')
  end.

(** [posixpath.normpath], as [posixpath.py] defines it: empty pieces and
    [.] go, [..] takes the piece before it away, and one or two leading
    slashes stay. *)
Definition normpath (path : string) : string :=
  if String.eqb path "" then "."
  else
    let initial_slashes :=
      if startswith path "/" then
        if (startswith path "//" && negb (startswith path "///"))%bool
        then 2%nat else 1%nat
      else 0%nat in
    let comps := PyStr.split slash path in
    let new_comps := fold_left (norm_step initial_slashes) comps [] in
    let path := slashes initial_slashes ++ PyStr.join slash new_comps in
    if String.eqb path "" then "." else path.

End PosixPath.

(** ** [http.server]: the request handler *)

Module HttpServer.

Import PyStr.

(** A request as [parse_request] leaves it in the handler: the method,
    the request target ([self.path]), the version of the request line
    ([HTTP/0.9] when the line has none), and the two headers that
    [send_head] reads.  [if_modified_since] is [Some t] when the header
    is present, well formed and in UTC, [t] being its time in seconds
    since the epoch; [if_none_match] says whether that header is
    present. *)
Record request : Type := {
  command : string;
  path : string;
  request_version : string;
  if_modified_since : option Z;
  if_none_match : bool
}.

(** What follows the headers.  The two generated pages are kept as
    their data; a file is its bytes. *)
Inductive payload : Type :=
| NoBody
| Bytes (data : string)
| ErrorPage (code : Z) (message : string)
| DirListing (names : list string).

(** A response: the code given to [send_response] (which is also the
    code the handler logs), the status line written to the client
    (none for an HTTP/0.9 request), the headers and the body.  The
    headers [Server], [Date], [Content-type], [Last-Modified],
    [Location] and the [Content-Length] of a generated page depend on
    the clock, the MIME table, the URL parser or the rendered HTML and
    are left out. *)
Record response : Type := {
  status : Z;
  status_line : option string;
  headers : list (string * string);
  body : payload
}.

(** The class attributes and constructor arguments of a handler class
    that the request path depends on. *)
Record handler_class : Type := {
  protocol_version : string;
  directory : string
}.

(** [BaseHTTPRequestHandler.protocol_version] *)
Definition default_protocol_version : string := "HTTP/1.0".

(** [class SimpleHTTPRequestHandler(BaseHTTPRequestHandler)] with its
    [directory] argument; the protocol version is inherited. *)
Definition SimpleHTTPRequestHandler (directory : string) : handler_class :=
  {| protocol_version := default_protocol_version; directory := directory |}.

(** The short messages of [BaseHTTPRequestHandler.responses] for the
    codes this handler sends. *)
Definition responses (code : Z) : option string :=
  match code with
  | 200 => Some "OK"
  | 301 => Some "Moved Permanently"
  | 304 => Some "Not Modified"
  | 404 => Some "Not Found"
  | 501 => Some "Not Implemented"
  | _ => None
  end.

Definition no_response : response :=
  {| status := 0; status_line := None; headers := []; body := NoBody |}.

Section Instance.

Variable self : handler_class.
Variable cwd : Fs.node.
Variable req : request.

Definition is_09 : bool := String.eqb (request_version req) "HTTP/0.9".

(** [send_response_only] *)
Definition send_response_only (code : Z) (message : option string)
           (r : response) : response :=
  let message :=
    match message with
    | Some m => m
    | None => match responses code with Some m => m | None => "" end
    end in
  {| status := code;
     status_line :=
       if is_09 then status_line r
       else Some (protocol_version self ++ " " ++ str code ++ " " ++ message);
     headers := headers r;
     body := body r |}.

(** [send_response] *)
Definition send_response (code : Z) (message : option string)
           (r : response) : response :=
  send_response_only code message r.

(** [send_header] *)
Definition send_header (keyword value : string) (r : response) : response :=
  if is_09 then r
  else {| status := status r; status_line := status_line r;
          headers := headers r ++ [(keyword, value)]; body := body r |}.

Definition write (b : payload) (r : response) : response :=
  {| status := status r; status_line := status_line r;
     headers := headers r; body := b |}.

(** [send_error] *)
Definition send_error (code : Z) (message : string) : response :=
  let r := send_response code (Some message) no_response in
  let r := send_header "Connection" "close" r in
  let has_body :=
    (Z.leb 200 code
     && negb (Z.eqb code 204 || Z.eqb code 205 || Z.eqb code 304))%bool in
  if (negb (String.eqb (command req) "HEAD") && has_body)%bool
  then write (ErrorPage code message) r
  else r.

(** [translate_path] *)
Definition translate_path (path : string) : string :=
  let path := before "?"%char path in
  let path := before "#"%char path in
  let trailing_slash := endswith_char (rstrip path) slash in
  let path := unquote path in
  let path := PosixPath.normpath path in
  let words := PyStr.split slash path in
  let words := filter (fun w => negb (String.eqb w "")) words in
  let path :=
    fold_left
      (fun path word =>
         if (negb (String.eqb (PosixPath.dirname word) "")
             || String.eqb word "." || String.eqb word "..")%bool
         then path
         else PosixPath.join path word)
      words (directory self) in
  if trailing_slash then path ++ "/" else path.

(** The path part of [urllib.parse.urlsplit(self.path)], for a
    request target in origin form (one that starts with a slash). *)
Definition urlsplit_path (target : string) : string :=
  before "?"%char (before "#"%char target).

(** Stable insertion sort by the lower-cased name, as
    [list.sort(key=lambda a: a.lower())]. *)
Definition lower_char (a : ascii) : ascii :=
  let n := nat_of_ascii a in
  if (Nat.leb 65 n && Nat.leb n 90)%bool then ascii_of_nat (n + 32) else a.

Fixpoint lower (s : string) : string :=
  match s with
  | EmptyString => EmptyString
  | String a s' => String (lower_char a) (lower s')
  end.

Fixpoint insert_sorted (x : string) (l : list string) : list string :=
  match l with
  | [] => [x]
  | y :: l' =>
      if String.ltb (lower x) (lower y) then x :: l
      else y :: insert_sorted x l'
  end.

Definition sort_names (l : list string) : list string :=
  fold_left (fun acc x => insert_sorted x acc) l [].

(** [list_directory]: the head of the answer and the page to copy. *)
Definition list_directory (path : string) : response * option payload :=
  match Fs.listdir cwd path with
  | inr _ => (send_error 404 "No permission to list directory", None)
  | inl names =>
      let names := sort_names names in
      let shown :=
        map (fun name =>
               if Fs.isdir cwd (PosixPath.join path name)
               then name ++ "/" else name) names in
      (send_response 200 None no_response, Some (DirListing shown))
  end.

(** The part of [send_head] after the directory test: open the file
    and answer 404, 304 or 200.  The second component is the open
    file that the caller copies to the client. *)
Definition send_file_head (path : string) : response * option payload :=
  if endswith_char path slash then (send_error 404 "File not found", None)
  else
    match Fs.open_rb cwd path with
    | inr _ => (send_error 404 "File not found", None)
    | inl (content, mtime) =>
        let not_modified :=
          match if_modified_since req with
          | Some ims => (negb (if_none_match req) && Z.leb mtime ims)%bool
          | None => false
          end in
        if not_modified then (send_response 304 None no_response, None)
        else
          let r := send_response 200 None no_response in
          let r := send_header "Content-Length"
                     (str (Z.of_nat (String.length content))) r in
          (r, Some (Bytes content))
    end.

(** [send_head] *)
Definition send_head : response * option payload :=
  let path := translate_path (HttpServer.path req) in
  if Fs.isdir cwd path then
    if negb (endswith_char (urlsplit_path (HttpServer.path req)) slash) then
      let r := send_response 301 None no_response in
      let r := send_header "Content-Length" "0" r in
      (r, None)
    else if Fs.isfile cwd (PosixPath.join path "index.html")
    then send_file_head (PosixPath.join path "index.html")
    else if Fs.isfile cwd (PosixPath.join path "index.htm")
    then send_file_head (PosixPath.join path "index.htm")
    else list_directory path
  else send_file_head path.

(** [do_GET]: the head, then the file copied to the client. *)
Definition do_GET : response :=
  match send_head with
  | (r, Some f) => write f r
  | (r, None) => r
  end.

(** [do_HEAD]: the head only. *)
Definition do_HEAD : response := fst send_head.

(** [handle_one_request] after [parse_request]: the method is looked
    up by name; this class has [do_GET] and [do_HEAD]. *)
Definition handle_one_request : response :=
  if String.eqb (command req) "GET" then do_GET
  else if String.eqb (command req) "HEAD" then do_HEAD
  else send_error 501 ("Unsupported method ('" ++ command req ++ "')").

End Instance.

End HttpServer.

(** ** The process and its surroundings *)

Module Py.

(** The exceptions that reach the script. *)
Inductive exn : Type :=
| OSError (e : Fs.errno)
| KeyboardInterrupt
| RecursionError.

(** [FileExistsError] is the [OSError] with [EEXIST]. *)
Definition is_FileExistsError (e : exn) : bool :=
  match e with
  | OSError Fs.EEXIST => true
  | _ => false
  end.

Definition is_OSError (e : exn) : bool :=
  match e with
  | OSError _ => true
  | _ => false
  end.

(** What arrives while the server waits: a connection carrying one
    request, or the interrupt signal. *)
Inductive input : Type :=
| Connection (req : HttpServer.request)
| Sigint.

(** What the process does that can be seen from outside, in the order
    it happens. *)
Inductive event : Type :=
| Mkdir (path : string) (failure : option Fs.errno)
| Bind (host : string) (port : Z) (failure : option Fs.errno)
| Listen (backlog : Z)
| Close
| Stdout (line : string)
| LogRequest (code : Z)
| Traceback (e : exn)
| ServeForever
| Accept (req : HttpServer.request)
| Reply (resp : HttpServer.response).

Inductive socket_state : Type :=
| NoSocket
| Created
| Bound (host : string) (port : Z)
| Listening (host : string) (port : Z)
| Closed.

(** The working directory tree, the ports other processes hold, whether
    the process may bind ports below 1024, what is still to arrive, the
    server's socket, and the events so far. *)
Record world : Type := {
  cwd : Fs.node;
  ports_in_use : list Z;
  privileged : bool;
  pending : list input;
  socket : socket_state;
  trace : list event
}.

Definition set_cwd (n : Fs.node) (w : world) : world :=
  {| cwd := n; ports_in_use := ports_in_use w; privileged := privileged w;
     pending := pending w; socket := socket w; trace := trace w |}.

Definition set_pending (p : list input) (w : world) : world :=
  {| cwd := cwd w; ports_in_use := ports_in_use w; privileged := privileged w;
     pending := p; socket := socket w; trace := trace w |}.

Definition set_socket (s : socket_state) (w : world) : world :=
  {| cwd := cwd w; ports_in_use := ports_in_use w; privileged := privileged w;
     pending := pending w; socket := s; trace := trace w |}.

Definition log (e : event) (w : world) : world :=
  {| cwd := cwd w; ports_in_use := ports_in_use w; privileged := privileged w;
     pending := pending w; socket := socket w; trace := trace w ++ [e] |}.

(** A statement returns, raises, or is still waiting for input when the
    inputs of the world are used up. *)
Inductive outcome (A : Type) : Type :=
| Return (a : A)
| Raise (e : exn)
| Wait.

Arguments Return {A} a.
Arguments Raise {A} e.
Arguments Wait {A}.

Definition M (A : Type) : Type := world -> outcome A * world.

Definition ret {A} (a : A) : M A := fun w => (Return a, w).

Definition raise {A} (e : exn) : M A := fun w => (Raise e, w).

Definition bind {A B} (m : M A) (k : A -> M B) : M B :=
  fun w =>
    match m w with
    | (Return a, w') => k a w'
    | (Raise e, w') => (Raise e, w')
    | (Wait, w') => (Wait, w')
    end.

(** [try: m  except <handles>: h] *)
Definition try_except {A} (m : M A) (handles : exn -> bool) (h : exn -> M A)
  : M A :=
  fun w =>
    match m w with
    | (Raise e, w') => if handles e then h e w' else (Raise e, w')
    | r => r
    end.

Definition get {A} (f : world -> A) : M A := fun w => (Return (f w), w).

Definition emit (e : event) : M unit := fun w => (Return tt, log e w).

(** [with ctor as r: body], for a context manager whose [__enter__]
    returns the object itself and whose [__exit__] returns [None]: the
    exit runs when the body returns or raises, and an exception of the
    body goes on after it. *)
Definition with_ {R A} (ctor : M R) (exit_ : R -> M unit) (body : R -> M A)
  : M A :=
  fun w =>
    match ctor w with
    | (Return r, w1) =>
        match body r w1 with
        | (Return a, w2) =>
            match exit_ r w2 with
            | (Return _, w3) => (Return a, w3)
            | (Raise e, w3) => (Raise e, w3)
            | (Wait, w3) => (Wait, w3)
            end
        | (Raise e, w2) =>
            match exit_ r w2 with
            | (Return _, w3) => (Raise e, w3)
            | (Raise e', w3) => (Raise e', w3)
            | (Wait, w3) => (Wait, w3)
            end
        | (Wait, w2) => (Wait, w2)
        end
    | (Raise e, w1) => (Raise e, w1)
    | (Wait, w1) => (Wait, w1)
    end.

(** How the process stands after the script has run as far as the
    inputs allow. *)
Inductive termination : Type :=
| Running
| Exited (code : Z)
| Killed (signal : Z).

Definition SIGINT : Z := 2.

(** [python3 script]: a script that runs to its end exits with 0.  An
    exception nobody caught has its traceback written to standard error;
    then the interpreter exits with 1, except for [KeyboardInterrupt],
    where it kills itself with [SIGINT]. *)
Definition run (script : M unit) (w : world) : termination * world :=
  match script w with
  | (Return _, w') => (Exited 0, w')
  | (Raise KeyboardInterrupt, w') =>
      (Killed SIGINT, log (Traceback KeyboardInterrupt) w')
  | (Raise e, w') => (Exited 1, log (Traceback e) w')
  | (Wait, w') => (Running, w')
  end.

(** The exit status a parent shell reports. *)
Definition exit_status (t : termination) : option Z :=
  match t with
  | Running => None
  | Exited code => Some code
  | Killed signal => Some (128 + signal)
  end.

(** [print(line)] *)
Definition print (line : string) : M unit := emit (Stdout line).

(** The lines written to standard output so far. *)
Fixpoint stdout_of (tr : list event) : list string :=
  match tr with
  | [] => []
  | Stdout l :: tr' => l :: stdout_of tr'
  | _ :: tr' => stdout_of tr'
  end.

Definition stdout (w : world) : list string := stdout_of (trace w).

End Py.

Declare Scope py_scope.
Delimit Scope py_scope with py.
Notation "x <- m ;; k" := (Py.bind m (fun x => k))
  (at level 61, m at next level, right associativity) : py_scope.
Notation "m ;; k" := (Py.bind m (fun _ => k))
  (at level 61, right associativity) : py_scope.
Open Scope py_scope.

(** ** [os] *)

Module Os.

Import Py.

(** [os.mkdir(path)] *)
Definition mkdir (path : string) : M unit :=
  fun w =>
    match Fs.mkdir (cwd w) path with
    | inl n => (Return tt, log (Mkdir path None) (set_cwd n w))
    | inr e => (Raise (OSError e), log (Mkdir path (Some e)) w)
    end.

(** The last statement of [makedirs]: [mkdir], and an [OSError] passes
    when [exist_ok] holds and the path is a directory. *)
Definition mkdir_leaf (name : string) (exist_ok : bool) : M unit :=
  try_except (mkdir name) is_OSError
    (fun e =>
       isd <- get (fun w => Fs.isdir (cwd w) name) ;;
       if (negb exist_ok || negb isd)%bool then raise e else ret tt).

(** [os.makedirs(name, exist_ok=...)].  The recursion is on the head of
    the path, which is shorter than the path; [depth] bounds it. *)
Fixpoint makedirs_depth (depth : nat) (name : string) (exist_ok : bool)
  : M unit :=
  match depth with
  | O => raise RecursionError
  | S depth' =>
      let '(head, tail) := PosixPath.split name in
      let '(head, tail) :=
        if String.eqb tail "" then PosixPath.split head else (head, tail) in
      missing <- get (fun w => negb (Fs.exists_ (cwd w) head)) ;;
      if (negb (String.eqb head "") && negb (String.eqb tail "") && missing)%bool
      then
        try_except (makedirs_depth depth' head exist_ok)
                   is_FileExistsError (fun _ => ret tt) ;;
        if String.eqb tail "." then ret tt
        else mkdir_leaf name exist_ok
      else mkdir_leaf name exist_ok
  end.

Definition makedirs (name : string) (exist_ok : bool) : M unit :=
  makedirs_depth (S (String.length name)) name exist_ok.

End Os.

(** ** [socketserver] *)

Module SocketServer.

Import Py.

(** A server object: the address it was given and its handler class. *)
Record server : Type := {
  server_address : string * Z;
  RequestHandlerClass : HttpServer.handler_class
}.

(** [TCPServer.request_queue_size] *)
Definition request_queue_size : Z := 5.

(** [socket.socket(AF_INET, SOCK_STREAM)] *)
Definition socket_create : M unit :=
  fun w => (Return tt, set_socket Created w).

(** [socket.bind((host, port))]: refused below port 1024 without the
    privilege, and on a port another process holds. *)
Definition socket_bind (address : string * Z) : M unit :=
  fun w =>
    let '(host, port) := address in
    let failure :=
      if (Z.ltb port 1024 && negb (privileged w))%bool then Some Fs.EACCES
      else if existsb (Z.eqb port) (ports_in_use w) then Some Fs.EADDRINUSE
      else None in
    match failure with
    | None => (Return tt, log (Bind host port None) (set_socket (Bound host port) w))
    | Some e => (Raise (OSError e), log (Bind host port (Some e)) w)
    end.

(** [socket.listen(backlog)] *)
Definition socket_listen (backlog : Z) : M unit :=
  fun w =>
    match socket w with
    | Bound host port =>
        (Return tt, log (Listen backlog) (set_socket (Listening host port) w))
    | _ => (Return tt, log (Listen backlog) w)
    end.

(** [socket.close()] *)
Definition socket_close : M unit :=
  fun w => (Return tt, log Close (set_socket Closed w)).

(** The empty host of an [AF_INET] address is [INADDR_ANY]: the socket
    takes connections on every local interface. *)
Definition all_interfaces (host : string) : bool := String.eqb host "".

(** [TCPServer.server_bind] *)
Definition server_bind (self : server) : M unit :=
  socket_bind (server_address self).

(** [TCPServer.server_activate] *)
Definition server_activate (self : server) : M unit :=
  socket_listen request_queue_size.

(** [TCPServer.server_close] *)
Definition server_close (self : server) : M unit := socket_close.

(** [TCPServer.__init__] *)
Definition TCPServer (server_address : string * Z)
           (RequestHandlerClass : HttpServer.handler_class) : M server :=
  let self := {| server_address := server_address;
                 RequestHandlerClass := RequestHandlerClass |} in
  socket_create ;;
  try_except (server_bind self ;; server_activate self)
             (fun _ => true)
             (fun e => server_close self ;; raise e) ;;
  ret self.

(** [BaseServer.__exit__] *)
Definition exit_ (self : server) : M unit := server_close self.

(** [BaseServer.finish_request]: the handler object is made, handles the
    request, logs the code and the answer goes to the client. *)
Definition finish_request (self : server) (req : HttpServer.request) : M unit :=
  fs <- get cwd ;;
  let resp := HttpServer.handle_one_request (RequestHandlerClass self) fs req in
  emit (LogRequest (HttpServer.status resp)) ;;
  emit (Reply resp).

(** [BaseServer._handle_request_noblock], for the connection that
    [select] reported: accept it, handle it, shut it down. *)
Definition handle_request_noblock (self : server) (req : HttpServer.request)
  : M unit :=
  emit (Accept req) ;;
  finish_request self req.

(** The loop of [serve_forever] over what arrives. *)
Fixpoint serve_inputs (self : server) (ins : list input) (w : world)
  : outcome unit * world :=
  match ins with
  | [] => (Wait, set_pending [] w)
  | Sigint :: rest => (Raise KeyboardInterrupt, set_pending rest w)
  | Connection req :: rest =>
      match handle_request_noblock self req (set_pending rest w) with
      | (Return _, w') => serve_inputs self rest w'
      | r => r
      end
  end.

(** [BaseServer.serve_forever] *)
Definition serve_forever (self : server) : M unit :=
  fun w => serve_inputs self (pending w) (log ServeForever w).

End SocketServer.

(** ** The script *)

Module ServeWeb.

Import Py.

Definition PORT : Z := 8000.
Definition SERVE_DIR : string := "dist".

(** [class Handler(http.server.SimpleHTTPRequestHandler)], whose
    constructor passes [directory=SERVE_DIR]. *)
Definition Handler : HttpServer.handler_class :=
  HttpServer.SimpleHTTPRequestHandler SERVE_DIR.

Definition line_url : string :=
  "🌐 Serving at http://localhost:" ++ PyStr.str PORT.

Definition line_dir : string :=
  "📁 Serving directory: " ++ SERVE_DIR ++ "/".

Definition line_stop : string := "Press Ctrl+C to stop".

(** The module body, statement by statement. *)
Definition main : M unit :=
  Os.makedirs SERVE_DIR true ;;
  with_ (SocketServer.TCPServer ("", PORT) Handler) SocketServer.exit_
    (fun httpd =>
       print line_url ;;
       print line_dir ;;
       print line_stop ;;
       SocketServer.serve_forever httpd).

(** [python3 serve-web.py] *)
Definition serve_web (w : world) : termination * world := run main w.

End ServeWeb.

(** ** Runs of the script and what is observed of them *)

Module Run.

Import Py.

(** The world in which the process starts: nothing has happened yet and
    the process has no socket. *)
Definition boot (fs : Fs.node) (ports : list Z) (priv : bool)
           (ins : list input) : world :=
  {| cwd := fs; ports_in_use := ports; privileged := priv; pending := ins;
     socket := NoSocket; trace := [] |}.

(** The world the process has reached. *)
Definition final (fs : Fs.node) (ports : list Z) (priv : bool)
           (ins : list input) : world :=
  snd (ServeWeb.serve_web (boot fs ports priv ins)).

(** How the process stands there. *)
Definition state (fs : Fs.node) (ports : list Z) (priv : bool)
           (ins : list input) : termination :=
  fst (ServeWeb.serve_web (boot fs ports priv ins)).

(** The server object the script builds. *)
Definition httpd : SocketServer.server :=
  {| SocketServer.server_address := ("", ServeWeb.PORT);
     SocketServer.RequestHandlerClass := ServeWeb.Handler |}.

(** The answer of the script's handler to one request. *)
Definition answer (fs : Fs.node) (req : HttpServer.request)
  : HttpServer.response :=
  HttpServer.handle_one_request ServeWeb.Handler fs req.

(** The events of serving the inputs up to the first interrupt. *)
Fixpoint served (fs : Fs.node) (ins : list input) : list event :=
  match ins with
  | [] => []
  | Sigint :: _ => []
  | Connection req :: rest =>
      Accept req :: LogRequest (HttpServer.status (answer fs req))
        :: Reply (answer fs req) :: served fs rest
  end.

Fixpoint interrupted (ins : list input) : bool :=
  match ins with
  | [] => false
  | Sigint :: _ => true
  | Connection _ :: rest => interrupted rest
  end.

(** What has not been looked at when the loop stops. *)
Fixpoint left_over (ins : list input) : list input :=
  match ins with
  | [] => []
  | Sigint :: rest => rest
  | Connection _ :: rest => left_over rest
  end.

Definition is_stdout (e : event) : bool :=
  match e with Stdout _ => true | _ => false end.

Definition is_bind (e : event) : bool :=
  match e with Bind _ _ _ => true | _ => false end.

Definition is_accept (e : event) : bool :=
  match e with Accept _ => true | _ => false end.

Definition is_traceback (e : event) : bool :=
  match e with Traceback _ => true | _ => false end.

Definition is_serve_forever (e : event) : bool :=
  match e with ServeForever => true | _ => false end.

(** The start succeeded: the process got as far as [serve_forever]. *)
Definition started (w : world) : bool := existsb is_serve_forever (trace w).

(** The directory [dist] of a tree, with nothing else touched. *)
Definition has_dist (fs : Fs.node) : bool := Fs.isdir fs ServeWeb.SERVE_DIR.

(** The startup lines. *)
Definition banner : list event :=
  [Stdout ServeWeb.line_url; Stdout ServeWeb.line_dir;
   Stdout ServeWeb.line_stop].

(** The port of the script is held by another process. *)
Definition port_taken (ports : list Z) : bool :=
  existsb (Z.eqb ServeWeb.PORT) ports.

(** What [makedirs] leaves of the tree, when it does not raise. *)
Definition after_makedirs (fs : Fs.node) : option Fs.node :=
  match Fs.mkdir fs "dist" with
  | inl n => Some n
  | inr _ => if Fs.isdir fs "dist" then Some fs else None
  end.

(** The event of its [mkdir]. *)
Definition mkdir_event (fs : Fs.node) : event :=
  Mkdir "dist" (match Fs.mkdir fs "dist" with
                | inl _ => None
                | inr e => Some e
                end).

(** The reading of the startup report as two lines: one with the port,
    one with the directory, nothing else. *)
Definition two_status_lines (w : world) : Prop :=
  exists l1 l2,
    stdout w = [l1; l2] /\
    PyStr.contains l1 (PyStr.str ServeWeb.PORT) = true /\
    PyStr.contains l2 ServeWeb.SERVE_DIR = true.

(** The reading of an interrupt as a clean exit: status 0 and no
    traceback. *)
Definition clean_exit (t : termination) (w : world) : Prop :=
  exit_status t = Some 0 /\ existsb is_traceback (trace w) = false.



(** The conditional request [req] is met by a file last modified at
    [mtime]: the handler answers 304 instead of sending it. *)
Definition not_modified (req : HttpServer.request) (mtime : Z) : bool :=
  match HttpServer.if_modified_since req with
  | Some ims => (negb (HttpServer.if_none_match req) && Z.leb mtime ims)%bool
  | None => false
  end.

(** A status line of the given protocol version. *)
Definition speaks (version : string) (resp : HttpServer.response) : Prop :=
  match HttpServer.status_line resp with
  | Some l => PyStr.startswith l (version ++ " ") = true
  | None => False
  end.

(** The answer to [req] is written in the given protocol version: its
    status line begins with it, or, for an HTTP/0.9 request, there is no
    status line at all. *)
Definition answers_as (version : string) (req : HttpServer.request)
           (resp : HttpServer.response) : Prop :=
  if HttpServer.is_09 req then HttpServer.status_line resp = None
  else exists rest,
      HttpServer.status_line resp = Some (version ++ " " ++ rest).

(** A name that stays inside its directory: not empty, not [.], not
    [..], and without a slash. *)
Fixpoint has_slash (s : string) : bool :=
  match s with
  | EmptyString => false
  | String a s' => (Ascii.eqb a PyStr.slash || has_slash s')%bool
  end.

Definition simple_name (w : string) : bool :=
  (negb (String.eqb w "") && negb (String.eqb w ".")
   && negb (String.eqb w "..") && negb (has_slash w))%bool.

(** [dir/w1/.../wn], with a slash at the end when [trailing]. *)
Fixpoint below (dir : string) (words : list string) : string :=
  match words with
  | [] => dir
  | w :: ws => below (dir ++ "/" ++ w) ws
  end.

Definition under (dir : string) (p : string) : Prop :=
  exists words (trailing : bool),
    forallb simple_name words = true /\
    p = below dir words ++ (if trailing then "/" else "").









(** Sample trees: an empty working directory, one that has the built
    site, one where [dist] is a regular file, one that cannot be written. *)
Definition empty_dir : Fs.node := Fs.Dir [] true true.

Definition site : Fs.node :=
  Fs.Dir [("index.html", Fs.File "<h1>hi</h1>" 100 true);
          ("secret.txt", Fs.File "s3cret" 100 false);
          ("assets", Fs.Dir [("app.js", Fs.File "js" 50 true)] true true)]
         true true.

Definition built : Fs.node := Fs.Dir [("dist", site)] true true.

Definition GET (p : string) : HttpServer.request :=
  {| HttpServer.command := "GET"; HttpServer.path := p;
     HttpServer.request_version := "HTTP/1.1";
     HttpServer.if_modified_since := None;
     HttpServer.if_none_match := false |}.

(** A conditional [GET]. *)
Definition GET_since (p : string) (t : Z) : HttpServer.request :=
  {| HttpServer.command := "GET"; HttpServer.path := p;
     HttpServer.request_version := "HTTP/1.1";
     HttpServer.if_modified_since := Some t;
     HttpServer.if_none_match := false |}.

End Run.

(** * Properties *)

Open Scope list_scope.

Import Py.

(** Two worlds built by the same updates are the same world. *)
Ltac same_world :=
  unfold log, set_socket, set_cwd, set_pending;
  cbn [cwd ports_in_use privileged pending socket trace];
  repeat rewrite <- app_assoc; cbn [app];
  try rewrite app_nil_r; reflexivity.

(** [makedirs] on the script's directory is one [mkdir], whose failure is
    let through when the directory is there. *)
Lemma makedirs_dist (w : world) :
  Os.makedirs ServeWeb.SERVE_DIR true w =
  match Fs.mkdir (cwd w) "dist" with
  | inl n => (Return tt, log (Mkdir "dist" None) (set_cwd n w))
  | inr e =>
      if Fs.isdir (cwd w) "dist"
      then (Return tt, log (Mkdir "dist" (Some e)) w)
      else (Raise (OSError e), log (Mkdir "dist" (Some e)) w)
  end.
Proof.
  unfold Os.makedirs, ServeWeb.SERVE_DIR.
  cbn -[Fs.mkdir Fs.isdir].
  unfold Os.mkdir_leaf, try_except, Os.mkdir, bind, get.
  destruct (Fs.mkdir (cwd w) "dist") as [n|e]; [reflexivity|].
  cbn -[Fs.isdir]. destruct (Fs.isdir (cwd w) "dist"); reflexivity.
Qed.

(** The serving loop, in closed form. *)
Lemma serve_inputs_eq (ins : list input) :
  forall w,
    SocketServer.serve_inputs Run.httpd ins w =
    (if Run.interrupted ins then Raise KeyboardInterrupt else Wait,
     {| cwd := cwd w; ports_in_use := ports_in_use w;
        privileged := privileged w; pending := Run.left_over ins;
        socket := socket w; trace := trace w ++ Run.served (cwd w) ins |}).
Proof.
  induction ins as [|[req|] rest IH]; intros w.
  - cbn. unfold set_pending. now rewrite app_nil_r.
  - cbn -[HttpServer.handle_one_request].
    unfold SocketServer.handle_request_noblock, SocketServer.finish_request,
      bind, emit, get.
    cbn -[HttpServer.handle_one_request].
    rewrite IH. cbn -[HttpServer.handle_one_request].
    unfold Run.answer. repeat rewrite <- app_assoc. reflexivity.
  - cbn. unfold set_pending. now rewrite app_nil_r.
Qed.

(** [makedirs] either raises the error of [mkdir], nothing changed, or
    returns with the tree [Run.after_makedirs] gives. *)
Lemma makedirs_raises (w : world) :
  Run.after_makedirs (cwd w) = None ->
  exists e,
    Fs.mkdir (cwd w) "dist" = inr e /\
    Os.makedirs ServeWeb.SERVE_DIR true w =
    (Raise (OSError e), log (Mkdir "dist" (Some e)) w).
Proof.
  unfold Run.after_makedirs. rewrite makedirs_dist.
  destruct (Fs.mkdir (cwd w) "dist") as [n|e]; [discriminate|].
  destruct (Fs.isdir (cwd w) "dist"); [discriminate|].
  intros _. exists e. split; reflexivity.
Qed.

Lemma makedirs_returns (w : world) (n : Fs.node) :
  Run.after_makedirs (cwd w) = Some n ->
  Os.makedirs ServeWeb.SERVE_DIR true w =
  (Return tt, log (Run.mkdir_event (cwd w)) (set_cwd n w)).
Proof.
  unfold Run.after_makedirs, Run.mkdir_event. rewrite makedirs_dist.
  destruct (Fs.mkdir (cwd w) "dist") as [m|e].
  - intros [= ->]. reflexivity.
  - destruct (Fs.isdir (cwd w) "dist"); [|discriminate].
    intros [= <-]. destruct w; reflexivity.
Qed.

(** The port of the script is above the privileged range, so its bind
    fails exactly when the port is taken. *)
Lemma bind_taken (w : world) :
  Run.port_taken (ports_in_use w) = true ->
  SocketServer.socket_bind ("", ServeWeb.PORT) w =
  (Raise (OSError Fs.EADDRINUSE),
   log (Bind "" ServeWeb.PORT (Some Fs.EADDRINUSE)) w).
Proof.
  unfold SocketServer.socket_bind, Run.port_taken. intros ->. reflexivity.
Qed.

Lemma bind_free (w : world) :
  Run.port_taken (ports_in_use w) = false ->
  SocketServer.socket_bind ("", ServeWeb.PORT) w =
  (Return tt,
   log (Bind "" ServeWeb.PORT None) (set_socket (Bound "" ServeWeb.PORT) w)).
Proof.
  unfold SocketServer.socket_bind, Run.port_taken. intros ->. reflexivity.
Qed.

(** The three ways the script goes. *)
Lemma main_no_directory (w : world) :
  Run.after_makedirs (cwd w) = None ->
  exists e,
    Fs.mkdir (cwd w) "dist" = inr e /\
    ServeWeb.main w = (Raise (OSError e), log (Mkdir "dist" (Some e)) w).
Proof.
  intros H. destruct (makedirs_raises w H) as (e & He & Hm).
  exists e. split; [exact He|].
  unfold ServeWeb.main, bind. rewrite Hm. reflexivity.
Qed.

Lemma main_no_port (w : world) (n : Fs.node) :
  Run.after_makedirs (cwd w) = Some n ->
  Run.port_taken (ports_in_use w) = true ->
  ServeWeb.main w =
  (Raise (OSError Fs.EADDRINUSE),
   {| cwd := n; ports_in_use := ports_in_use w; privileged := privileged w;
      pending := pending w; socket := Closed;
      trace := trace w ++ [Run.mkdir_event (cwd w);
                           Bind "" ServeWeb.PORT (Some Fs.EADDRINUSE);
                           Close] |}).
Proof.
  intros Hd Hp.
  unfold ServeWeb.main, bind at 1. rewrite (makedirs_returns w n Hd).
  unfold with_, SocketServer.TCPServer, bind, try_except,
    SocketServer.server_bind, SocketServer.socket_create.
  cbn [SocketServer.server_address].
  rewrite bind_taken by exact Hp.
  cbn [SocketServer.server_close SocketServer.socket_close raise].
  same_world.
Qed.

Lemma main_serves (w : world) (n : Fs.node) :
  Run.after_makedirs (cwd w) = Some n ->
  Run.port_taken (ports_in_use w) = false ->
  ServeWeb.main w =
  (if Run.interrupted (pending w) then Raise KeyboardInterrupt else Wait,
   {| cwd := n; ports_in_use := ports_in_use w; privileged := privileged w;
      pending := Run.left_over (pending w);
      socket := if Run.interrupted (pending w) then Closed
                else Listening "" ServeWeb.PORT;
      trace := trace w
               ++ [Run.mkdir_event (cwd w); Bind "" ServeWeb.PORT None;
                   Listen SocketServer.request_queue_size]
               ++ Run.banner ++ [ServeForever]
               ++ Run.served n (pending w)
               ++ (if Run.interrupted (pending w) then [Close] else []) |}).
Proof.
  intros Hd Hp.
  unfold ServeWeb.main, bind at 1. rewrite (makedirs_returns w n Hd).
  unfold with_, SocketServer.TCPServer, bind, try_except,
    SocketServer.server_bind, SocketServer.socket_create.
  cbn [SocketServer.server_address].
  rewrite bind_free by exact Hp.
  unfold SocketServer.server_activate, SocketServer.socket_listen,
    SocketServer.serve_forever, print, emit, ret.
  cbn [socket set_socket log fst snd pending].
  fold Run.httpd. rewrite serve_inputs_eq.
  cbn [cwd ports_in_use privileged pending socket trace log set_socket set_cwd].
  destruct (Run.interrupted (pending w));
    cbn [SocketServer.exit_ SocketServer.server_close
         SocketServer.socket_close];
    unfold Run.banner; same_world.
Qed.

(** *** The directory after [makedirs] *)

Lemma assoc_app_new (k : string) (v : Fs.node) (es : list (string * Fs.node)) :
  Fs.assoc k es = None -> Fs.assoc k (es ++ [(k, v)]) = Some v.
Proof.
  induction es as [|[k' n] es IH]; cbn.
  - now rewrite String.eqb_refl.
  - destruct (String.eqb k' k); [discriminate|exact IH].
Qed.

(** [mkdir] of [dist] succeeds exactly in a writable working directory
    that has no entry of that name, and adds the empty directory. *)
Lemma mkdir_dist_inl (fs n : Fs.node) :
  Fs.mkdir fs "dist" = inl n ->
  exists es l,
    fs = Fs.Dir es l true /\ Fs.assoc "dist" es = None /\
    n = Fs.Dir (es ++ [("dist", Fs.Dir [] true true)]) l true.
Proof.
  unfold Fs.mkdir. cbn. destruct fs as [c t r|es l w]; [discriminate|].
  destruct (Fs.assoc "dist" es) eqn:Ha; [discriminate|].
  destruct w; [|discriminate].
  intros [= <-]. exists es, l. auto.
Qed.

Lemma has_dist_assoc (es : list (string * Fs.node)) (l w : bool) :
  Run.has_dist (Fs.Dir es l w) =
  match Fs.assoc "dist" es with
  | Some (Fs.Dir _ _ _) => true
  | _ => false
  end.
Proof.
  unfold Run.has_dist, Fs.isdir, Fs.stat. cbn.
  destruct (Fs.assoc "dist" es) as [[| ]|]; reflexivity.
Qed.

Lemma after_makedirs_has_dist (fs n : Fs.node) :
  Run.after_makedirs fs = Some n -> Run.has_dist n = true.
Proof.
  unfold Run.after_makedirs.
  destruct (Fs.mkdir fs "dist") as [m|e] eqn:Hm.
  - intros [= <-]. apply mkdir_dist_inl in Hm.
    destruct Hm as (es & l & -> & Ha & ->).
    rewrite has_dist_assoc, (assoc_app_new _ _ _ Ha). reflexivity.
  - change (Fs.isdir fs "dist") with (Run.has_dist fs). destruct (Run.has_dist fs) eqn:Hd; [|discriminate].
    now intros [= <-].
Qed.

(** A directory that is there is left as it is. *)
Lemma after_makedirs_kept (fs : Fs.node) :
  Run.has_dist fs = true -> Run.after_makedirs fs = Some fs.
Proof.
  intros Hd. unfold Run.after_makedirs.
  destruct (Fs.mkdir fs "dist") as [m|e] eqn:Hm.
  - apply mkdir_dist_inl in Hm. destruct Hm as (es & l & -> & Ha & ->).
    rewrite has_dist_assoc, Ha in Hd. discriminate.
  - change (Fs.isdir fs "dist") with (Run.has_dist fs). now rewrite Hd.
Qed.

(** A directory that is not there is added, and nothing else changes. *)
Lemma after_makedirs_created (fs n : Fs.node) :
  Run.has_dist fs = false -> Run.after_makedirs fs = Some n ->
  exists es l,
    fs = Fs.Dir es l true /\ Fs.assoc "dist" es = None /\
    n = Fs.Dir (es ++ [("dist", Fs.Dir [] true true)]) l true.
Proof.
  intros Hd. unfold Run.after_makedirs.
  destruct (Fs.mkdir fs "dist") as [m|e] eqn:Hm.
  - intros [= <-]. now apply mkdir_dist_inl.
  - change (Fs.isdir fs "dist") with (Run.has_dist fs). rewrite Hd. discriminate.
Qed.

(** *** The whole run, by cases *)

Lemma run_cases (fs : Fs.node) (ports : list Z) (priv : bool)
      (ins : list input) :
  match Run.after_makedirs fs with
  | None =>
      exists e,
        Fs.mkdir fs "dist" = inr e /\
        ServeWeb.serve_web (Run.boot fs ports priv ins) =
        (Exited 1,
         {| cwd := fs; ports_in_use := ports; privileged := priv;
            pending := ins; socket := NoSocket;
            trace := [Mkdir "dist" (Some e); Traceback (OSError e)] |})
  | Some n =>
      if Run.port_taken ports then
        ServeWeb.serve_web (Run.boot fs ports priv ins) =
        (Exited 1,
         {| cwd := n; ports_in_use := ports; privileged := priv;
            pending := ins; socket := Closed;
            trace := [Run.mkdir_event fs;
                      Bind "" ServeWeb.PORT (Some Fs.EADDRINUSE);
                      Close; Traceback (OSError Fs.EADDRINUSE)] |})
      else
        ServeWeb.serve_web (Run.boot fs ports priv ins) =
        (if Run.interrupted ins then Killed SIGINT else Running,
         {| cwd := n; ports_in_use := ports; privileged := priv;
            pending := Run.left_over ins;
            socket := if Run.interrupted ins then Closed
                      else Listening "" ServeWeb.PORT;
            trace := [Run.mkdir_event fs; Bind "" ServeWeb.PORT None;
                      Listen SocketServer.request_queue_size]
                     ++ Run.banner ++ [ServeForever]
                     ++ Run.served n ins
                     ++ (if Run.interrupted ins
                         then [Close; Traceback KeyboardInterrupt]
                         else []) |})
  end.
Proof.
  unfold ServeWeb.serve_web, run.
  destruct (Run.after_makedirs fs) as [n|] eqn:Hd.
  - destruct (Run.port_taken ports) eqn:Hp.
    + rewrite (main_no_port (Run.boot fs ports priv ins) n Hd Hp).
      same_world.
    + rewrite (main_serves (Run.boot fs ports priv ins) n Hd Hp).
      cbn [Run.boot pending cwd ports_in_use privileged trace].
      destruct (Run.interrupted ins); unfold Run.banner; same_world.
  - destruct (main_no_directory (Run.boot fs ports priv ins) Hd)
      as (e & He & Hm).
    exists e. split; [exact He|]. rewrite Hm. same_world.
Qed.


(** * The startup report *)

Lemma stdout_of_app (a b : list event) :
  stdout_of (a ++ b) = stdout_of a ++ stdout_of b.
Proof.
  induction a as [|e a IH]; [reflexivity|].
  destruct e; cbn; rewrite IH; reflexivity.
Qed.

(** Serving writes nothing to standard output and binds nothing. *)
Lemma served_quiet (fs : Fs.node) (ins : list input) :
  stdout_of (Run.served fs ins) = [] /\
  filter Run.is_bind (Run.served fs ins) = [] /\
  existsb Run.is_serve_forever (Run.served fs ins) = false /\
  existsb Run.is_traceback (Run.served fs ins) = false.
Proof.
  induction ins as [|[req|] rest IH]; cbn; auto.
Qed.

(** A run that got to [serve_forever] is a run of the third kind. *)
Lemma started_run (fs : Fs.node) (ports : list Z) (priv : bool)
      (ins : list input) :
  Run.started (Run.final fs ports priv ins) = true ->
  exists n,
    Run.after_makedirs fs = Some n /\ Run.port_taken ports = false /\
    Run.state fs ports priv ins =
      (if Run.interrupted ins then Killed SIGINT else Running) /\
    Run.final fs ports priv ins =
      {| cwd := n; ports_in_use := ports; privileged := priv;
         pending := Run.left_over ins;
         socket := if Run.interrupted ins then Closed
                   else Listening "" ServeWeb.PORT;
         trace := [Run.mkdir_event fs; Bind "" ServeWeb.PORT None;
                   Listen SocketServer.request_queue_size]
                  ++ Run.banner ++ [ServeForever]
                  ++ Run.served n ins
                  ++ (if Run.interrupted ins
                      then [Close; Traceback KeyboardInterrupt]
                      else []) |}.
Proof.
  unfold Run.final, Run.state. pose proof (run_cases fs ports priv ins) as H.
  destruct (Run.after_makedirs fs) as [n|].
  - destruct (Run.port_taken ports).
    + rewrite H. unfold Run.started, Run.mkdir_event. cbn. discriminate.
    + intros _. exists n. rewrite H. auto.
  - destruct H as (e & _ & ->). cbn. discriminate.
Qed.

(** C1, as the code has it: after a successful start the standard output
    holds exactly three lines, the first with the port 8000, the second
    with the directory name dist, the third the hint how to stop; all
    three are written before [serve_forever] and before any connection
    is accepted, and nothing is written to standard output afterwards. *)
Theorem C1_startup_lines (fs : Fs.node) (ports : list Z) (priv : bool)
        (ins : list input) :
  Run.started (Run.final fs ports priv ins) = true ->
  stdout (Run.final fs ports priv ins) =
    [ServeWeb.line_url; ServeWeb.line_dir; ServeWeb.line_stop] /\
  PyStr.contains ServeWeb.line_url (PyStr.str ServeWeb.PORT) = true /\
  PyStr.contains ServeWeb.line_dir ServeWeb.SERVE_DIR = true /\
  exists pre post,
    trace (Run.final fs ports priv ins) = pre ++ ServeForever :: post /\
    stdout_of pre =
      [ServeWeb.line_url; ServeWeb.line_dir; ServeWeb.line_stop] /\
    existsb Run.is_accept pre = false /\
    stdout_of post = [].
Proof.
  intros Hs. destruct (started_run _ _ _ _ Hs) as (n & _ & _ & _ & ->).
  destruct (served_quiet n ins) as (Hq & _).
  unfold stdout. cbn [trace]. split; [|split; [|split]].
  - unfold Run.mkdir_event, Run.banner. cbn [app stdout_of].
    rewrite stdout_of_app, Hq. now destruct (Run.interrupted ins).
  - reflexivity.
  - reflexivity.
  - exists ([Run.mkdir_event fs; Bind "" ServeWeb.PORT None;
             Listen SocketServer.request_queue_size] ++ Run.banner).
    exists (Run.served n ins
            ++ (if Run.interrupted ins
                then [Close; Traceback KeyboardInterrupt] else [])).
    split; [now rewrite <- !app_assoc|].
    split; [reflexivity|]. split; [reflexivity|].
    rewrite stdout_of_app, Hq. now destruct (Run.interrupted ins).
Qed.

Lemma C1_startup_lines_witness :
  stdout (Run.final Run.empty_dir [] false []) =
    [ServeWeb.line_url; ServeWeb.line_dir; ServeWeb.line_stop].
Proof.
  apply (C1_startup_lines Run.empty_dir [] false []). reflexivity.
Defined.

(** C1 as worded fails: a start in an empty writable directory with the
    port free succeeds and leaves three lines, not two. *)
Lemma C1_not_two_lines :
  Run.started (Run.final Run.empty_dir [] false []) = true /\
  ~ Run.two_status_lines (Run.final Run.empty_dir [] false []).
Proof.
  split; [reflexivity|].
  intros (l1 & l2 & H & _). vm_compute in H. discriminate.
Qed.

(** * The interrupt *)

(** C2, as the code has it: when the serving process is interrupted,
    [serve_forever] raises [KeyboardInterrupt]; leaving the [with] block
    closes the listening socket, so nothing more is accepted, and the
    exception, which nothing catches, ends the process: its traceback is
    written and the process is killed by SIGINT, which a shell reports as
    status 130. *)
Theorem C2_interrupt (fs : Fs.node) (ports : list Z) (priv : bool)
        (ins : list input) :
  Run.started (Run.final fs ports priv ins) = true ->
  Run.interrupted ins = true ->
  Run.state fs ports priv ins = Killed SIGINT /\
  exit_status (Run.state fs ports priv ins) = Some 130 /\
  socket (Run.final fs ports priv ins) = Closed /\
  pending (Run.final fs ports priv ins) = Run.left_over ins /\
  exists pre,
    trace (Run.final fs ports priv ins) =
      pre ++ [Close; Traceback KeyboardInterrupt] /\
    existsb Run.is_traceback pre = false.
Proof.
  intros Hs Hi. destruct (started_run _ _ _ _ Hs) as (n & _ & _ & -> & ->).
  rewrite Hi. cbn [socket pending trace exit_status].
  repeat split.
  exists ([Run.mkdir_event fs; Bind "" ServeWeb.PORT None;
           Listen SocketServer.request_queue_size] ++ Run.banner
          ++ [ServeForever] ++ Run.served n ins).
  split; [now rewrite <- !app_assoc|].
  destruct (served_quiet n ins) as (_ & _ & _ & Ht).
  unfold Run.mkdir_event, Run.banner. cbn [app existsb Run.is_traceback orb].
  exact Ht.
Qed.

Lemma C2_interrupt_witness :
  Run.state Run.built [] false [Connection (Run.GET "/index.html"); Sigint]
  = Killed SIGINT.
Proof.
  apply (C2_interrupt Run.built [] false
           [Connection (Run.GET "/index.html"); Sigint]); reflexivity.
Defined.

(** C2 as worded fails: an interrupt of the running server does not end
    in exit status 0 without a traceback. *)
Lemma C2_not_clean_exit :
  Run.started (Run.final Run.built [] false [Sigint]) = true /\
  ~ Run.clean_exit (Run.state Run.built [] false [Sigint])
                   (Run.final Run.built [] false [Sigint]).
Proof.
  split; [reflexivity|]. intros [H _]. vm_compute in H. discriminate.
Qed.

(** * The directory comes first *)

(** Every run begins with the [mkdir] of the directory. *)
Lemma run_begins_with_mkdir (fs : Fs.node) (ports : list Z) (priv : bool)
      (ins : list input) :
  exists rest,
    trace (Run.final fs ports priv ins) = Run.mkdir_event fs :: rest.
Proof.
  unfold Run.final. pose proof (run_cases fs ports priv ins) as H.
  destruct (Run.after_makedirs fs) as [n|].
  - destruct (Run.port_taken ports); rewrite H; cbn; eauto.
  - destruct H as (e & He & ->). unfold Run.mkdir_event. rewrite He.
    cbn. eauto.
Qed.

(** A run in which a bind was tried is a run in which [makedirs]
    returned. *)
Lemma bound_run (fs : Fs.node) (ports : list Z) (priv : bool)
      (ins : list input) :
  existsb Run.is_bind (trace (Run.final fs ports priv ins)) = true ->
  exists n,
    Run.after_makedirs fs = Some n /\ cwd (Run.final fs ports priv ins) = n.
Proof.
  unfold Run.final. pose proof (run_cases fs ports priv ins) as H.
  destruct (Run.after_makedirs fs) as [n|].
  - intros _. exists n. split; [reflexivity|].
    destruct (Run.port_taken ports); rewrite H; reflexivity.
  - destruct H as (e & _ & ->). cbn. discriminate.
Qed.

(** C3: in every run the first thing done is the [mkdir] of dist, before
    any bind; once a bind has been tried, and so whenever the listener
    serves, dist is a directory; a directory that was absent has been
    added to the working directory with everything else left as it was,
    and one that was there lets the start succeed when the port is free. *)
Theorem C3_directory_first (fs : Fs.node) (ports : list Z) (priv : bool)
        (ins : list input) :
  (exists rest,
     trace (Run.final fs ports priv ins) = Run.mkdir_event fs :: rest) /\
  (existsb Run.is_bind (trace (Run.final fs ports priv ins)) = true ->
   Run.has_dist (cwd (Run.final fs ports priv ins)) = true) /\
  (Run.started (Run.final fs ports priv ins) = true ->
   Run.has_dist (cwd (Run.final fs ports priv ins)) = true) /\
  (Run.started (Run.final fs ports priv ins) = true ->
   Run.has_dist fs = false ->
   exists es l,
     fs = Fs.Dir es l true /\ Fs.assoc "dist" es = None /\
     cwd (Run.final fs ports priv ins) =
       Fs.Dir (es ++ [("dist", Fs.Dir [] true true)]) l true) /\
  (Run.has_dist fs = true -> Run.port_taken ports = false ->
   Run.started (Run.final fs ports priv ins) = true /\
   cwd (Run.final fs ports priv ins) = fs).
Proof.
  split; [apply run_begins_with_mkdir|].
  split.
  { intros Hb. destruct (bound_run _ _ _ _ Hb) as (n & Hn & ->).
    exact (after_makedirs_has_dist _ _ Hn). }
  split.
  { intros Hs. destruct (started_run _ _ _ _ Hs) as (n & Hn & _ & _ & ->).
    exact (after_makedirs_has_dist _ _ Hn). }
  split.
  { intros Hs Hd. destruct (started_run _ _ _ _ Hs) as (n & Hn & _ & _ & ->).
    exact (after_makedirs_created _ _ Hd Hn). }
  intros Hd Hp. unfold Run.final.
  pose proof (run_cases fs ports priv ins) as H.
  rewrite (after_makedirs_kept _ Hd), Hp in H. rewrite H.
  split; [|reflexivity].
  unfold Run.started, Run.mkdir_event, Run.banner. cbn [snd trace app existsb].
  cbn. reflexivity.
Qed.

Lemma C3_directory_first_witness :
  Run.has_dist (cwd (Run.final Run.empty_dir [] false [])) = true /\
  cwd (Run.final Run.built [] false []) = Run.built.
Proof.
  pose proof (C3_directory_first Run.empty_dir [] false [])
    as (_ & _ & H1 & _).
  pose proof (C3_directory_first Run.built [] false [])
    as (_ & _ & _ & _ & H2).
  split.
  - apply H1. reflexivity.
  - apply H2; reflexivity.
Defined.

(** * The listener *)

Lemma filter_bind_app (a b : list event) :
  filter Run.is_bind (a ++ b) = filter Run.is_bind a ++ filter Run.is_bind b.
Proof. apply filter_app. Qed.

(** The bind events of a run: none, or the one bind of the script's
    address. *)
Lemma run_binds (fs : Fs.node) (ports : list Z) (priv : bool)
      (ins : list input) :
  filter Run.is_bind (trace (Run.final fs ports priv ins)) = [] \/
  exists r,
    filter Run.is_bind (trace (Run.final fs ports priv ins)) =
      [Bind "" ServeWeb.PORT r] /\
    (r = None <-> Run.started (Run.final fs ports priv ins) = true).
Proof.
  unfold Run.final. pose proof (run_cases fs ports priv ins) as H.
  destruct (Run.after_makedirs fs) as [n|].
  - destruct (Run.port_taken ports); rewrite H; right.
    + exists (Some Fs.EADDRINUSE). unfold Run.mkdir_event. cbn.
      split; [reflexivity|]. split; discriminate.
    + exists None. cbn [snd trace]. unfold Run.mkdir_event, Run.banner.
      cbn [app filter Run.is_bind]. rewrite filter_bind_app.
      destruct (served_quiet n ins) as (_ & -> & _).
      split; [now destruct (Run.interrupted ins)|].
      split; [intros _; reflexivity|reflexivity].
  - destruct H as (e & _ & ->). left. reflexivity.
Qed.

(** Whatever a run binds is the script's address. *)
Lemma run_bind_address (fs : Fs.node) (ports : list Z) (priv : bool)
      (ins : list input) (host : string) (port : Z) (r : option Fs.errno) :
  In (Bind host port r) (trace (Run.final fs ports priv ins)) ->
  host = ""%string /\ port = 8000.
Proof.
  intros Hin.
  assert (In (Bind host port r)
             (filter Run.is_bind (trace (Run.final fs ports priv ins)))) as Hf
    by (apply filter_In; split; [exact Hin|reflexivity]).
  destruct (run_binds fs ports priv ins) as [He|(r' & He & _)];
    rewrite He in Hf; cbn in Hf; [contradiction|].
  destruct Hf as [[= <- <- <-]|[]]. split; reflexivity.
Qed.

(** C7: a run binds at most once, always the address with the empty host
    (every local interface) and port 8000; when the server gets to serve,
    the bind and the listen have succeeded before [serve_forever] is
    entered, and no connection is accepted before that. *)
Theorem C7_single_listener (fs : Fs.node) (ports : list Z) (priv : bool)
        (ins : list input) :
  (length (filter Run.is_bind (trace (Run.final fs ports priv ins))) <= 1)%nat /\
  (forall host port r,
     In (Bind host port r) (trace (Run.final fs ports priv ins)) ->
     host = "" /\ port = 8000 /\ SocketServer.all_interfaces host = true) /\
  (Run.started (Run.final fs ports priv ins) = true ->
   exists pre post,
     trace (Run.final fs ports priv ins) = pre ++ ServeForever :: post /\
     In (Bind "" 8000 None) pre /\
     In (Listen SocketServer.request_queue_size) pre /\
     existsb Run.is_accept pre = false /\
     existsb Run.is_serve_forever pre = false).
Proof.
  split; [|split].
  - destruct (run_binds fs ports priv ins) as [->|(r & -> & _)]; cbn; lia.
  - intros host port r Hin.
    destruct (run_bind_address _ _ _ _ _ _ _ Hin) as [-> ->]. repeat split.
  - intros Hs. destruct (started_run _ _ _ _ Hs) as (n & _ & _ & _ & ->).
    exists ([Run.mkdir_event fs; Bind "" ServeWeb.PORT None;
             Listen SocketServer.request_queue_size] ++ Run.banner).
    eexists. cbn [trace]. split; [now rewrite <- !app_assoc|].
    unfold Run.mkdir_event, Run.banner. cbn. auto 10.
Qed.

Lemma C7_single_listener_witness :
  exists pre post,
    trace (Run.final Run.built [] false [Connection (Run.GET "/")]) =
      pre ++ ServeForever :: post /\
    In (Bind "" 8000 None) pre /\
    In (Listen SocketServer.request_queue_size) pre /\
    existsb Run.is_accept pre = false /\
    existsb Run.is_serve_forever pre = false.
Proof.
  apply (C7_single_listener Run.built [] false [Connection (Run.GET "/")]).
  reflexivity.
Defined.

(** * A failed bind *)

(** A run with a failed bind is a run of the second kind. *)
Lemma failed_bind_run (fs : Fs.node) (ports : list Z) (priv : bool)
      (ins : list input) (host : string) (port : Z) (e : Fs.errno) :
  In (Bind host port (Some e)) (trace (Run.final fs ports priv ins)) ->
  exists n,
    Run.after_makedirs fs = Some n /\ e = Fs.EADDRINUSE /\
    ServeWeb.serve_web (Run.boot fs ports priv ins) =
    (Exited 1,
     {| cwd := n; ports_in_use := ports; privileged := priv;
        pending := ins; socket := Closed;
        trace := [Run.mkdir_event fs;
                  Bind "" ServeWeb.PORT (Some Fs.EADDRINUSE);
                  Close; Traceback (OSError Fs.EADDRINUSE)] |}).
Proof.
  intros Hin.
  assert (In (Bind host port (Some e))
             (filter Run.is_bind (trace (Run.final fs ports priv ins)))) as Hf
    by (apply filter_In; split; [exact Hin|reflexivity]).
  clear Hin. revert Hf. unfold Run.final.
  pose proof (run_cases fs ports priv ins) as H.
  destruct (Run.after_makedirs fs) as [n|].
  - destruct (Run.port_taken ports); rewrite H.
    + unfold Run.mkdir_event. cbn. intros [[= <- <- <-]|[]].
      exists n. auto.
    + cbn [snd trace]. unfold Run.mkdir_event, Run.banner.
      cbn [app filter Run.is_bind]. rewrite filter_bind_app.
      destruct (served_quiet n ins) as (_ & -> & _).
      destruct (Run.interrupted ins); cbn; intros [[=]|[]].
  - destruct H as (e' & _ & ->). cbn. intros [].
Qed.

(** C8: when the bind fails, the process ends with exit status 1; the
    error of the bind is in the traceback written to standard error; the
    bind is not tried again, the socket is closed and the server never
    serves. *)
Theorem C8_bind_failure (fs : Fs.node) (ports : list Z) (priv : bool)
        (ins : list input) (host : string) (port : Z) (e : Fs.errno) :
  In (Bind host port (Some e)) (trace (Run.final fs ports priv ins)) ->
  Run.state fs ports priv ins = Exited 1 /\
  exit_status (Run.state fs ports priv ins) <> Some 0 /\
  In (Traceback (OSError e)) (trace (Run.final fs ports priv ins)) /\
  length (filter Run.is_bind (trace (Run.final fs ports priv ins))) = 1%nat /\
  socket (Run.final fs ports priv ins) = Closed /\
  Run.started (Run.final fs ports priv ins) = false.
Proof.
  intros Hin. destruct (failed_bind_run _ _ _ _ _ _ _ Hin) as (n & _ & -> & H).
  unfold Run.state, Run.final. rewrite H. unfold Run.mkdir_event.
  cbn. repeat split; auto. discriminate.
Qed.

Lemma C8_bind_failure_witness :
  Run.state Run.built [8000] false [Connection (Run.GET "/")] = Exited 1.
Proof.
  apply (C8_bind_failure Run.built [8000] false [Connection (Run.GET "/")]
           "" 8000 Fs.EADDRINUSE).
  cbn. auto.
Defined.

(** The port held by another process makes the bind fail. *)
Lemma port_taken_fails (fs n : Fs.node) (ports : list Z) (priv : bool)
      (ins : list input) :
  Run.after_makedirs fs = Some n -> Run.port_taken ports = true ->
  In (Bind "" 8000 (Some Fs.EADDRINUSE)) (trace (Run.final fs ports priv ins)).
Proof.
  intros Hn Hp. unfold Run.final.
  pose proof (run_cases fs ports priv ins) as H. rewrite Hn, Hp in H.
  rewrite H. cbn. auto.
Qed.

(** * Starting again *)

(** What [makedirs] leaves is left as it is by a second [makedirs]. *)
Lemma after_makedirs_twice (fs n : Fs.node) :
  Run.after_makedirs fs = Some n -> Run.after_makedirs n = Some n.
Proof.
  intros H. apply after_makedirs_kept. exact (after_makedirs_has_dist _ _ H).
Qed.

(** The tree at the end of a run. *)
Lemma final_cwd (fs : Fs.node) (ports : list Z) (priv : bool)
      (ins : list input) :
  cwd (Run.final fs ports priv ins) =
  match Run.after_makedirs fs with
  | Some n => n
  | None => fs
  end.
Proof.
  unfold Run.final. pose proof (run_cases fs ports priv ins) as H.
  destruct (Run.after_makedirs fs) as [n|].
  - destruct (Run.port_taken ports); rewrite H; reflexivity.
  - destruct H as (e & _ & ->). reflexivity.
Qed.

(** C9: with dist already a directory, [makedirs] returns without
    raising and the run leaves the whole tree as it was; and whatever the
    first run leaves, a second run, with any ports and inputs, leaves the
    same tree. *)
Theorem C9_start_again (fs : Fs.node) (ports ports' : list Z)
        (priv priv' : bool) (ins ins' : list input) :
  (forall w : world,
     Run.has_dist (cwd w) = true ->
     Os.makedirs ServeWeb.SERVE_DIR true w =
       (Return tt, log (Mkdir "dist" (Some Fs.EEXIST)) w)) /\
  (Run.has_dist fs = true -> cwd (Run.final fs ports priv ins) = fs) /\
  cwd (Run.final (cwd (Run.final fs ports priv ins)) ports' priv' ins') =
  cwd (Run.final fs ports priv ins).
Proof.
  split; [|split].
  - intros w Hd. rewrite makedirs_dist.
    change (Fs.isdir (cwd w) "dist") with (Run.has_dist (cwd w)).
    rewrite Hd. destruct (Fs.mkdir (cwd w) "dist") as [m|e] eqn:Hm.
    + apply mkdir_dist_inl in Hm. destruct Hm as (es & l & Hw & Ha & _).
      rewrite Hw, has_dist_assoc, Ha in Hd. discriminate.
    + revert Hm Hd. unfold Fs.mkdir. cbn -[Run.has_dist].
      destruct (cwd w) as [c t r|es l wr]; [discriminate|].
      rewrite has_dist_assoc. destruct (Fs.assoc "dist" es); [|discriminate].
      now intros [= <-].
  - intros Hd. now rewrite final_cwd, (after_makedirs_kept _ Hd).
  - rewrite !final_cwd.
    destruct (Run.after_makedirs fs) as [n|] eqn:Hn.
    + now rewrite (after_makedirs_twice _ _ Hn).
    + now rewrite Hn.
Qed.

Lemma C9_start_again_witness :
  cwd (Run.final Run.built [] false [Sigint]) = Run.built.
Proof.
  destruct (C9_start_again Run.built [] [] false false [Sigint] [])
    as (_ & H & _).
  apply H. reflexivity.
Defined.

(** * What a failed bind leaves behind *)

(** C10: when the bind fails, the [mkdir] of dist has come before it, so
    dist is a directory, added if it was absent with everything else as
    it was, and not one line has been written to standard output. *)
Theorem C10_not_atomic (fs : Fs.node) (ports : list Z) (priv : bool)
        (ins : list input) (host : string) (port : Z) (e : Fs.errno) :
  In (Bind host port (Some e)) (trace (Run.final fs ports priv ins)) ->
  Run.has_dist (cwd (Run.final fs ports priv ins)) = true /\
  stdout (Run.final fs ports priv ins) = [] /\
  (exists rest,
     trace (Run.final fs ports priv ins) =
       Run.mkdir_event fs :: Bind host port (Some e) :: rest) /\
  (Run.has_dist fs = false ->
   exists es l,
     fs = Fs.Dir es l true /\ Fs.assoc "dist" es = None /\
     cwd (Run.final fs ports priv ins) =
       Fs.Dir (es ++ [("dist", Fs.Dir [] true true)]) l true).
Proof.
  intros Hin. pose proof Hin as Hin'.
  destruct (failed_bind_run _ _ _ _ _ _ _ Hin) as (n & Hn & -> & H).
  revert Hin'. unfold Run.final, stdout. rewrite H. cbn [snd cwd trace].
  intros Hin'. split; [exact (after_makedirs_has_dist _ _ Hn)|].
  split; [unfold Run.mkdir_event; reflexivity|].
  split.
  - assert (host = "" /\ port = ServeWeb.PORT) as [-> ->].
    { revert Hin'. unfold Run.mkdir_event. cbn.
      intros [[=]|[[= <- <-]|[[=]|[[=]|[]]]]]. auto. }
    eauto.
  - intros Hd. exact (after_makedirs_created _ _ Hd Hn).
Qed.

Lemma C10_not_atomic_witness :
  Run.has_dist (cwd (Run.final Run.empty_dir [8000] false [])) = true /\
  stdout (Run.final Run.empty_dir [8000] false []) = [].
Proof.
  pose proof (C10_not_atomic Run.empty_dir [8000] false []
                "" 8000 Fs.EADDRINUSE) as H.
  destruct H as (H1 & H2 & _); [cbn; auto|]. split; assumption.
Defined.

(** * Requests *)

(** ** Paths that end in a slash *)




(** ** The code of an answer *)








(** What the two requests get instead. *)
Lemma conditional_get_304 :
  HttpServer.status (Run.answer Run.built (Run.GET_since "/index.html" 100))
    = 304 /\
  HttpServer.body (Run.answer Run.built (Run.GET_since "/index.html" 100))
    = HttpServer.NoBody.
Proof. split; reflexivity. Qed.

Lemma unreadable_get_404 :
  HttpServer.status (Run.answer Run.built (Run.GET "/secret.txt")) = 404.
Proof. reflexivity. Qed.

(** ** Where the handler looks *)

Lemma split_no_slash (s : string) :
  Forall (fun w => Run.has_slash w = false) (PyStr.split PyStr.slash s).
Proof.
  induction s as [|a s IH]; [repeat constructor|].
  cbn [PyStr.split]. destruct (Ascii.eqb a PyStr.slash) eqn:Ha.
  - constructor; [reflexivity|exact IH].
  - destruct (PyStr.split PyStr.slash s) as [|w ws].
    + repeat constructor. cbn. now rewrite Ha.
    + inversion IH as [|? ? Hw Hws]; subst. constructor; [|exact Hws].
      cbn. now rewrite Ha, Hw.
Qed.

Lemma cut_last_no_slash (w : string) :
  Run.has_slash w = false -> PosixPath.cut_last w = (""%string, w).
Proof.
  induction w as [|a w IH]; [reflexivity|].
  cbn [Run.has_slash PosixPath.cut_last]. intros H.
  apply orb_false_iff in H. destruct H as [Ha Hw].
  rewrite (IH Hw). cbn. now rewrite Ha.
Qed.

Lemma dirname_no_slash (w : string) :
  Run.has_slash w = false -> PosixPath.dirname w = ""%string.
Proof.
  intros H. unfold PosixPath.dirname. now rewrite (cut_last_no_slash _ H).
Qed.

Lemma endswith_slash_has_slash (w : string) :
  PyStr.endswith_char w PyStr.slash = true -> Run.has_slash w = true.
Proof.
  induction w as [|a w IH]; [discriminate|].
  destruct w as [|b w'].
  - cbn. intros ->. reflexivity.
  - intros H. change (PyStr.endswith_char (String b w') PyStr.slash = true) in H.
    change (Run.has_slash (String a (String b w')))
      with (Ascii.eqb a PyStr.slash || Run.has_slash (String b w'))%bool.
    rewrite (IH H). apply orb_true_r.
Qed.

Lemma endswith_append (x w : string) (c : ascii) :
  w <> ""%string ->
  PyStr.endswith_char (x ++ w)%string c = PyStr.endswith_char w c.
Proof.
  intros Hw. induction x as [|a x IH]; [reflexivity|].
  cbn [String.append]. destruct (x ++ w)%string as [|b y] eqn:E.
  - destruct x; [cbn in E; contradiction|discriminate].
  - exact IH.
Qed.

(** A simple name is added to a path that does not end in a slash with
    one slash in between. *)
Lemma join_simple (acc w : string) :
  Run.simple_name w = true -> acc <> ""%string ->
  PyStr.endswith_char acc PyStr.slash = false ->
  PosixPath.join acc w = (acc ++ "/" ++ w)%string /\
  PyStr.endswith_char (acc ++ "/" ++ w)%string PyStr.slash = false.
Proof.
  unfold Run.simple_name. intros Hs Hacc He.
  apply andb_true_iff in Hs. destruct Hs as [Hs Hsl].
  apply andb_true_iff in Hs. destruct Hs as [Hs _].
  apply andb_true_iff in Hs. destruct Hs as [Hne _].
  apply negb_true_iff in Hsl. apply negb_true_iff in Hne.
  apply String.eqb_neq in Hne.
  split.
  - unfold PosixPath.join. rewrite He.
    destruct w as [|a w]; [contradiction|].
    cbn in Hsl. apply orb_false_iff in Hsl. destruct Hsl as [Ha _].
    unfold PyStr.startswith. cbn [String.prefix].
    destruct (Ascii.ascii_dec "/" a) as [<-|_]; [discriminate|].
    destruct (String.eqb_spec acc ""); [contradiction|reflexivity].
  - change (acc ++ "/" ++ w)%string with (acc ++ String "/" w)%string.
    destruct (PyStr.endswith_char (acc ++ String "/" w) PyStr.slash) eqn:E;
      [|reflexivity].
    rewrite endswith_append in E by discriminate.
    destruct w as [|a w]; [contradiction|].
    change (PyStr.endswith_char (String a w) PyStr.slash = true) in E.
    apply endswith_slash_has_slash in E. congruence.
Qed.

(** The loop of [translate_path] adds the simple names among the words
    and skips the rest. *)
Lemma translate_loop (words : list string) :
  forall acc,
    Forall (fun w => Run.has_slash w = false) words ->
    Forall (fun w => w <> ""%string) words ->
    acc <> ""%string ->
    PyStr.endswith_char acc PyStr.slash = false ->
    exists ws,
      forallb Run.simple_name ws = true /\
      fold_left
        (fun path word =>
           if (negb (String.eqb (PosixPath.dirname word) "")
               || String.eqb word "." || String.eqb word "..")%bool
           then path else PosixPath.join path word)
        words acc = Run.below acc ws.
Proof.
  induction words as [|w words IH]; intros acc Hs Hn Hacc He.
  - exists []. split; reflexivity.
  - inversion Hs as [|? ? Hw Hws]; subst.
    inversion Hn as [|? ? Hw' Hws']; subst.
    cbn [fold_left]. rewrite (dirname_no_slash _ Hw).
    cbn [String.eqb negb orb].
    destruct (String.eqb w ".") eqn:E1; [now apply IH|].
    destruct (String.eqb w "..") eqn:E2; [now apply IH|].
    cbn [orb].
    assert (Run.simple_name w = true) as Hsimple.
    { unfold Run.simple_name. rewrite E1, E2, Hw.
      apply String.eqb_neq in Hw'. now rewrite Hw'. }
    destruct (join_simple acc w Hsimple Hacc He) as [-> He'].
    destruct (IH (acc ++ "/" ++ w)%string Hws Hws') as (ws & Hws1 & Hws2).
    + destruct acc; [contradiction|discriminate].
    + exact He'.
    + exists (w :: ws). split; [cbn; now rewrite Hsimple|exact Hws2].
Qed.

Lemma append_empty_r (s : string) : (s ++ "")%string = s.
Proof. induction s as [|a s IH]; [reflexivity|]. cbn. now rewrite IH. Qed.

(** Every request path is translated to a path under dist. *)
Lemma translate_under (p : string) :
  Run.under "dist" (HttpServer.translate_path ServeWeb.Handler p).
Proof.
  unfold HttpServer.translate_path, Run.under.
  cbn [HttpServer.directory ServeWeb.Handler HttpServer.SimpleHTTPRequestHandler
       ServeWeb.SERVE_DIR].
  set (q := PosixPath.normpath _).
  destruct (translate_loop
              (filter (fun w => negb (String.eqb w "")) (PyStr.split PyStr.slash q))
              "dist"%string) as (ws & H1 & H2).
  - apply Forall_forall. intros w Hw. apply filter_In in Hw.
    destruct Hw as [Hw _].
    exact (proj1 (Forall_forall _ _) (split_no_slash q) w Hw).
  - apply Forall_forall. intros w Hw. apply filter_In in Hw.
    destruct Hw as [_ Hw]. apply negb_true_iff in Hw.
    now apply String.eqb_neq.
  - discriminate.
  - reflexivity.
  - exists ws.
    exists (PyStr.endswith_char
              (PyStr.rstrip (PyStr.before "#" (PyStr.before "?" p))) PyStr.slash).
    split; [exact H1|]. unfold ServeWeb.SERVE_DIR. rewrite H2.
    destruct (PyStr.endswith_char _ PyStr.slash);
      [reflexivity|symmetry; apply append_empty_r].
Qed.

(** ** The protocol version of the answers *)

Section Version.

Variable fs : Fs.node.
Variable req : HttpServer.request.

Lemma version_send_response (code : Z) (message : option string) :
  Run.answers_as "HTTP/1.0" req
    (HttpServer.send_response ServeWeb.Handler req code message HttpServer.no_response).
Proof.
  unfold Run.answers_as, HttpServer.send_response,
    HttpServer.send_response_only.
  destruct (HttpServer.is_09 req); cbn; eauto.
Qed.

Lemma version_send_header (k v : string) (r : HttpServer.response) :
  Run.answers_as "HTTP/1.0" req r ->
  Run.answers_as "HTTP/1.0" req (HttpServer.send_header req k v r).
Proof.
  unfold Run.answers_as, HttpServer.send_header.
  destruct (HttpServer.is_09 req); cbn; auto.
Qed.

Lemma version_write (b : HttpServer.payload) (r : HttpServer.response) :
  Run.answers_as "HTTP/1.0" req r ->
  Run.answers_as "HTTP/1.0" req (HttpServer.write b r).
Proof.
  unfold Run.answers_as, HttpServer.write.
  destruct (HttpServer.is_09 req); cbn; auto.
Qed.

Lemma version_send_error (code : Z) (message : string) :
  Run.answers_as "HTTP/1.0" req (HttpServer.send_error ServeWeb.Handler req code message).
Proof.
  unfold HttpServer.send_error.
  destruct (negb _ && _)%bool;
    [apply version_write|]; apply version_send_header, version_send_response.
Qed.

Lemma version_list_directory (path : string) :
  Run.answers_as "HTTP/1.0" req
    (fst (HttpServer.list_directory ServeWeb.Handler fs req path)).
Proof.
  unfold HttpServer.list_directory.
  destruct (Fs.listdir fs path); cbn [fst].
  - apply version_send_response.
  - apply version_send_error.
Qed.

Lemma version_send_file_head (path : string) :
  Run.answers_as "HTTP/1.0" req
    (fst (HttpServer.send_file_head ServeWeb.Handler fs req path)).
Proof.
  unfold HttpServer.send_file_head.
  destruct (PyStr.endswith_char path PyStr.slash);
    [apply version_send_error|].
  destruct (Fs.open_rb fs path) as [[content mtime]|e];
    [|apply version_send_error].
  destruct (match HttpServer.if_modified_since req with
            | Some ims => _
            | None => false
            end); cbn [fst].
  - apply version_send_response.
  - apply version_send_header, version_send_response.
Qed.

Lemma version_send_head :
  Run.answers_as "HTTP/1.0" req (fst (HttpServer.send_head ServeWeb.Handler fs req)).
Proof.
  unfold HttpServer.send_head.
  destruct (Fs.isdir fs _); [|apply version_send_file_head].
  destruct (negb _).
  - cbn [fst]. apply version_send_header, version_send_response.
  - destruct (Fs.isfile fs _); [apply version_send_file_head|].
    destruct (Fs.isfile fs _); [apply version_send_file_head|].
    apply version_list_directory.
Qed.

(** Every answer of the script's handler is an HTTP/1.0 answer. *)
Lemma answer_version : Run.answers_as "HTTP/1.0" req (Run.answer fs req).
Proof.
  unfold Run.answer, HttpServer.handle_one_request.
  destruct (String.eqb (HttpServer.command req) "GET").
  - unfold HttpServer.do_GET. pose proof version_send_head as H.
    destruct (HttpServer.send_head ServeWeb.Handler fs req) as [r [f|]];
      [apply version_write|]; exact H.
  - destruct (String.eqb (HttpServer.command req) "HEAD").
    + apply version_send_head.
    + apply version_send_error.
Qed.

End Version.

(** ** The answers of a run *)

Lemma served_replies (fs : Fs.node) (ins : list input)
      (resp : HttpServer.response) :
  In (Reply resp) (Run.served fs ins) ->
  exists req, In (Connection req) ins /\ resp = Run.answer fs req.
Proof.
  induction ins as [|[req|] rest IH]; cbn; [intros []| |intros []].
  intros [[=]|[[=]|[[= <-]|H]]].
  - exists req. auto.
  - destruct (IH H) as (req' & Hin & ->). exists req'. auto.
Qed.

(** Every answer in a run is the handler's answer to a request that came
    in, computed on the tree the run ends with. *)
Lemma run_replies (fs : Fs.node) (ports : list Z) (priv : bool)
      (ins : list input) (resp : HttpServer.response) :
  In (Reply resp) (trace (Run.final fs ports priv ins)) ->
  exists req,
    In (Connection req) ins /\
    resp = Run.answer (cwd (Run.final fs ports priv ins)) req.
Proof.
  unfold Run.final. pose proof (run_cases fs ports priv ins) as H.
  destruct (Run.after_makedirs fs) as [n|].
  - destruct (Run.port_taken ports); rewrite H; cbn [snd trace cwd].
    + unfold Run.mkdir_event. cbn. intros [[=]|[[=]|[[=]|[[=]|[]]]]].
    + unfold Run.mkdir_event, Run.banner. cbn [app].
      intros Hin. repeat (destruct Hin as [[=]|Hin]).
      apply in_app_or in Hin. destruct Hin as [Hin|Hin].
      * now apply served_replies.
      * destruct (Run.interrupted ins); cbn in Hin;
          repeat (destruct Hin as [[=]|Hin]); contradiction.
  - destruct H as (e & _ & ->). cbn. intros [[=]|[[=]|[]]].
Qed.

(** C6, as the code has it: every answer of a run is the static handler's
    answer to a request that came in; it is written as HTTP/1.0, the
    version the handler class inherits, and the path it looks at is dist
    followed by simple names, so it lies under dist and, dist being a
    relative path, under the working directory; and no port but 8000 is
    ever bound. *)
Theorem C6_protocol_port_directory (fs : Fs.node) (ports : list Z)
        (priv : bool) (ins : list input) :
  (forall resp,
     In (Reply resp) (trace (Run.final fs ports priv ins)) ->
     exists req,
       In (Connection req) ins /\
       resp = Run.answer (cwd (Run.final fs ports priv ins)) req /\
       Run.answers_as "HTTP/1.0" req resp /\
       Run.under "dist"
         (HttpServer.translate_path ServeWeb.Handler (HttpServer.path req))) /\
  (forall host port r,
     In (Bind host port r) (trace (Run.final fs ports priv ins)) ->
     port = 8000) /\
  ServeWeb.PORT = 8000 /\
  ServeWeb.SERVE_DIR = "dist"%string /\
  PyStr.startswith ServeWeb.SERVE_DIR "/" = false.
Proof.
  split; [|split; [|repeat split]].
  - intros resp Hin. destruct (run_replies _ _ _ _ _ Hin) as (req & Hreq & ->).
    exists req. split; [exact Hreq|]. split; [reflexivity|].
    split; [apply answer_version|apply translate_under].
  - intros host port r Hin.
    now destruct (run_bind_address _ _ _ _ _ _ _ Hin) as [_ ->].
Qed.

Lemma C6_protocol_port_directory_witness :
  exists req,
    In (Connection req) [Connection (Run.GET "/assets/app.js")] /\
    Run.answers_as "HTTP/1.0" req (Run.answer Run.built (Run.GET "/assets/app.js")).
Proof.
  destruct (C6_protocol_port_directory Run.built [] false
              [Connection (Run.GET "/assets/app.js")]) as (H & _).
  destruct (H (Run.answer Run.built (Run.GET "/assets/app.js")))
    as (req & H1 & _ & H2 & _).
  - cbn. auto 12.
  - exists req. split; assumption.
Defined.

(** C6 as worded fails in the protocol version: the answer to an
    HTTP/1.1 request for a file of the site, which a run of the server
    sends, has the status line of an HTTP/1.0 answer. *)
Lemma C6_not_http11 :
  In (Reply (Run.answer Run.built (Run.GET "/index.html")))
     (trace (Run.final Run.built [] false
               [Connection (Run.GET "/index.html")])) /\
  HttpServer.status_line (Run.answer Run.built (Run.GET "/index.html")) =
    Some "HTTP/1.0 200 OK"%string /\
  ~ Run.speaks "HTTP/1.1" (Run.answer Run.built (Run.GET "/index.html")).
Proof.
  split; [cbn; auto 12|]. split; [reflexivity|].
  unfold Run.speaks. vm_compute. discriminate.
Qed.

(** * Further properties of the run *)



(** X2: a run ends in one of three ways and never with exit status 0:
    still serving, with the socket listening on every interface at port
    8000; killed by the interrupt, after serving, with the socket closed;
    or exited with status 1 before serving. *)
Theorem process_fates (fs : Fs.node) (ports : list Z) (priv : bool)
        (ins : list input) :
  exit_status (Run.state fs ports priv ins) <> Some 0 /\
  ((Run.state fs ports priv ins = Running /\
    Run.started (Run.final fs ports priv ins) = true /\
    Run.interrupted ins = false /\
    socket (Run.final fs ports priv ins) = Listening "" 8000) \/
   (Run.state fs ports priv ins = Killed SIGINT /\
    Run.started (Run.final fs ports priv ins) = true /\
    Run.interrupted ins = true /\
    socket (Run.final fs ports priv ins) = Closed) \/
   (Run.state fs ports priv ins = Exited 1 /\
    Run.started (Run.final fs ports priv ins) = false /\
    stdout (Run.final fs ports priv ins) = [])).
Proof.
  unfold Run.state, Run.final. pose proof (run_cases fs ports priv ins) as H.
  destruct (Run.after_makedirs fs) as [n|].
  - destruct (Run.port_taken ports); rewrite H.
    + split; [discriminate|]. right. right. unfold Run.mkdir_event. cbn. auto.
    + assert (Run.started
                {| cwd := n; ports_in_use := ports; privileged := priv;
                   pending := Run.left_over ins;
                   socket := if Run.interrupted ins then Closed
                             else Listening "" ServeWeb.PORT;
                   trace := [Run.mkdir_event fs; Bind "" ServeWeb.PORT None;
                             Listen SocketServer.request_queue_size]
                            ++ Run.banner ++ [ServeForever]
                            ++ Run.served n ins
                            ++ (if Run.interrupted ins
                                then [Close; Traceback KeyboardInterrupt]
                                else []) |} = true) as Hs
        by (unfold Run.started, Run.mkdir_event, Run.banner; cbn; reflexivity).
      cbn [fst snd]. rewrite Hs.
      destruct (Run.interrupted ins); (split; [discriminate|]).
      * right. left. cbn. auto.
      * left. cbn. auto.
  - destruct H as (e & _ & ->). split; [discriminate|]. right. right.
    cbn. auto.
Qed.

(** X3: a process that has ended has left no socket open: it never had
    one, or the socket is closed and [Close] is the last socket event. *)
Theorem no_socket_left_open (fs : Fs.node) (ports : list Z) (priv : bool)
        (ins : list input) :
  Run.state fs ports priv ins <> Running ->
  (socket (Run.final fs ports priv ins) = NoSocket /\
   existsb Run.is_bind (trace (Run.final fs ports priv ins)) = false) \/
  (socket (Run.final fs ports priv ins) = Closed /\
   exists pre e,
     trace (Run.final fs ports priv ins) = pre ++ [Close; Traceback e]).
Proof.
  unfold Run.state, Run.final. pose proof (run_cases fs ports priv ins) as H.
  destruct (Run.after_makedirs fs) as [n|].
  - destruct (Run.port_taken ports); rewrite H; cbn [fst snd socket trace].
    + intros _. right. split; [reflexivity|].
      exists [Run.mkdir_event fs; Bind "" ServeWeb.PORT (Some Fs.EADDRINUSE)].
      eexists. reflexivity.
    + destruct (Run.interrupted ins); [|intros Hr; now contradiction Hr].
      intros _. right. split; [reflexivity|].
      exists ([Run.mkdir_event fs; Bind "" ServeWeb.PORT None;
               Listen SocketServer.request_queue_size] ++ Run.banner
              ++ [ServeForever] ++ Run.served n ins).
      eexists. now rewrite <- !app_assoc.
  - destruct H as (e & _ & ->). intros _. left. cbn. auto.
Qed.

Lemma no_socket_left_open_witness :
  (socket (Run.final Run.built [] false [Sigint]) = NoSocket /\
   existsb Run.is_bind (trace (Run.final Run.built [] false [Sigint])) = false)
  \/
  (socket (Run.final Run.built [] false [Sigint]) = Closed /\
   exists pre e,
     trace (Run.final Run.built [] false [Sigint]) =
       pre ++ [Close; Traceback e]).
Proof.
  apply (no_socket_left_open Run.built [] false [Sigint]). discriminate.
Defined.

(** X4: with a regular file in the place of dist, [exist_ok] does not
    help: [makedirs] raises the [FileExistsError] of [mkdir], the process
    exits with status 1 and its traceback, and nothing else has happened:
    no bind, no output, the tree as it was. *)
Theorem dist_is_a_file (es : list (string * Fs.node)) (l w : bool)
        (content : string) (mtime : Z) (readable : bool)
        (ports : list Z) (priv : bool) (ins : list input) :
  Fs.assoc "dist" es = Some (Fs.File content mtime readable) ->
  ServeWeb.serve_web (Run.boot (Fs.Dir es l w) ports priv ins) =
  (Exited 1,
   {| cwd := Fs.Dir es l w; ports_in_use := ports; privileged := priv;
      pending := ins; socket := NoSocket;
      trace := [Mkdir "dist" (Some Fs.EEXIST);
                Traceback (OSError Fs.EEXIST)] |}).
Proof.
  intros Ha. pose proof (run_cases (Fs.Dir es l w) ports priv ins) as H.
  assert (Fs.mkdir (Fs.Dir es l w) "dist" = inr Fs.EEXIST) as Hm
    by (unfold Fs.mkdir; cbn; now rewrite Ha).
  unfold Run.after_makedirs in H. rewrite Hm in H.
  change (Fs.isdir (Fs.Dir es l w) "dist") with (Run.has_dist (Fs.Dir es l w)) in H.
  rewrite has_dist_assoc, Ha in H.
  destruct H as (e & [= <-] & H). exact H.
Qed.

Lemma dist_is_a_file_witness :
  Run.state (Fs.Dir [("dist"%string, Fs.File "" 0 true)] true true)
            [] false [] = Exited 1.
Proof.
  unfold Run.state.
  rewrite (dist_is_a_file [("dist"%string, Fs.File "" 0 true)] true true
             "" 0 true [] false []); reflexivity.
Defined.

(** X5: in a working directory that is not writable and has no dist,
    [makedirs] raises the [PermissionError] of [mkdir]; the process exits
    with status 1 and its traceback, without a bind or a line of output,
    and the tree is as it was. *)
Theorem unwritable_directory (es : list (string * Fs.node)) (l : bool)
        (ports : list Z) (priv : bool) (ins : list input) :
  Fs.assoc "dist" es = None ->
  ServeWeb.serve_web (Run.boot (Fs.Dir es l false) ports priv ins) =
  (Exited 1,
   {| cwd := Fs.Dir es l false; ports_in_use := ports; privileged := priv;
      pending := ins; socket := NoSocket;
      trace := [Mkdir "dist" (Some Fs.EACCES);
                Traceback (OSError Fs.EACCES)] |}).
Proof.
  intros Ha. pose proof (run_cases (Fs.Dir es l false) ports priv ins) as H.
  assert (Fs.mkdir (Fs.Dir es l false) "dist" = inr Fs.EACCES) as Hm
    by (unfold Fs.mkdir; cbn; now rewrite Ha).
  unfold Run.after_makedirs in H. rewrite Hm in H.
  change (Fs.isdir (Fs.Dir es l false) "dist")
    with (Run.has_dist (Fs.Dir es l false)) in H.
  rewrite has_dist_assoc, Ha in H.
  destruct H as (e & [= <-] & H). exact H.
Qed.

Lemma unwritable_directory_witness :
  Run.state (Fs.Dir [] true false) [] false [Sigint] = Exited 1.
Proof.
  unfold Run.state.
  rewrite (unwritable_directory [] true [] false [Sigint]); reflexivity.
Defined.

(** X6: a run never writes to the tree except to make dist: whatever the
    ports, the privileges and the requests, it leaves the tree as it was
    or with the one empty directory added at the end of the working
    directory; and two runs from the same tree leave the same tree. *)
Theorem tree_only_gains_dist (fs : Fs.node) (ports ports' : list Z)
        (priv priv' : bool) (ins ins' : list input) :
  (cwd (Run.final fs ports priv ins) = fs \/
   exists es l,
     fs = Fs.Dir es l true /\ Fs.assoc "dist" es = None /\
     cwd (Run.final fs ports priv ins) =
       Fs.Dir (es ++ [("dist"%string, Fs.Dir [] true true)]) l true) /\
  cwd (Run.final fs ports priv ins) = cwd (Run.final fs ports' priv' ins').
Proof.
  rewrite !final_cwd. split; [|reflexivity].
  destruct (Run.after_makedirs fs) as [n|] eqn:Hn; [|now left].
  destruct (Run.has_dist fs) eqn:Hd.
  - left. rewrite (after_makedirs_kept _ Hd) in Hn. now injection Hn.
  - right. exact (after_makedirs_created _ _ Hd Hn).
Qed.




(** X8: the port of the script is above the privileged range, so the run
    is the same whether or not the process may bind low ports: the same
    end, the same events, the same tree. *)
Theorem privilege_plays_no_part (fs : Fs.node) (ports : list Z)
        (ins : list input) :
  Run.state fs ports true ins = Run.state fs ports false ins /\
  trace (Run.final fs ports true ins) = trace (Run.final fs ports false ins) /\
  cwd (Run.final fs ports true ins) = cwd (Run.final fs ports false ins) /\
  socket (Run.final fs ports true ins) = socket (Run.final fs ports false ins).
Proof.
  unfold Run.state, Run.final.
  pose proof (run_cases fs ports true ins) as H1.
  pose proof (run_cases fs ports false ins) as H2.
  destruct (Run.after_makedirs fs) as [n|].
  - destruct (Run.port_taken ports); rewrite H1, H2; repeat split.
  - destruct H1 as (e1 & He1 & ->). destruct H2 as (e2 & He2 & ->).
    assert (e1 = e2) as -> by congruence. repeat split.
Qed.

(** * Further properties of the answers *)

(** ** Query strings *)






(** ** HEAD *)

Section Head.

Variable fs : Fs.node.
Variable req : HttpServer.request.
Hypothesis is_head : HttpServer.command req = "HEAD"%string.





End Head.



(** ** Other methods *)



(** ** Directories *)





(** ** Directory listings *)










(** ** HTTP/0.9 *)

Section Bare.

Variable fs : Fs.node.
Variable req : HttpServer.request.
Hypothesis is_old : HttpServer.is_09 req = true.

Lemma bare_send_response (code : Z) (message : option string) :
  HttpServer.status_line
    (HttpServer.send_response ServeWeb.Handler req code message
       HttpServer.no_response) = None /\
  HttpServer.headers
    (HttpServer.send_response ServeWeb.Handler req code message
       HttpServer.no_response) = [].
Proof.
  unfold HttpServer.send_response, HttpServer.send_response_only.
  rewrite is_old. split; reflexivity.
Qed.

Lemma bare_send_header (k v : string) (r : HttpServer.response) :
  HttpServer.send_header req k v r = r.
Proof. unfold HttpServer.send_header. now rewrite is_old. Qed.

Lemma bare_send_error (code : Z) (message : string) :
  HttpServer.status_line
    (HttpServer.send_error ServeWeb.Handler req code message) = None /\
  HttpServer.headers
    (HttpServer.send_error ServeWeb.Handler req code message) = [].
Proof.
  unfold HttpServer.send_error. rewrite bare_send_header.
  destruct (negb _ && _)%bool; cbn [HttpServer.write HttpServer.status_line
                                    HttpServer.headers];
    apply bare_send_response.
Qed.

Lemma bare_send_head :
  HttpServer.status_line (fst (HttpServer.send_head ServeWeb.Handler fs req))
    = None /\
  HttpServer.headers (fst (HttpServer.send_head ServeWeb.Handler fs req)) = [].
Proof.
  assert (forall p,
             HttpServer.status_line
               (fst (HttpServer.send_file_head ServeWeb.Handler fs req p)) = None /\
             HttpServer.headers
               (fst (HttpServer.send_file_head ServeWeb.Handler fs req p)) = [])
    as Hfile.
  { intros p. unfold HttpServer.send_file_head.
    destruct (PyStr.endswith_char p PyStr.slash); [apply bare_send_error|].
    destruct (Fs.open_rb fs p) as [[content mtime]|e]; [|apply bare_send_error].
    destruct (match HttpServer.if_modified_since req with
              | Some ims => _
              | None => false
              end); cbn [fst]; rewrite ?bare_send_header;
      apply bare_send_response. }
  unfold HttpServer.send_head.
  destruct (Fs.isdir fs _); [|apply Hfile].
  destruct (negb _).
  - cbn [fst]. rewrite bare_send_header. apply bare_send_response.
  - destruct (Fs.isfile fs _); [apply Hfile|].
    destruct (Fs.isfile fs _); [apply Hfile|].
    unfold HttpServer.list_directory.
    destruct (Fs.listdir fs _); cbn [fst];
      [apply bare_send_response|apply bare_send_error].
Qed.

End Bare.

(** X15: a request in the old form without a version (HTTP/0.9) is
    answered without a status line and without headers, whatever the
    method, the target and the outcome: only the body goes out. *)
Theorem old_requests_answered_bare (fs : Fs.node) (req : HttpServer.request) :
  HttpServer.request_version req = "HTTP/0.9"%string ->
  HttpServer.status_line (Run.answer fs req) = None /\
  HttpServer.headers (Run.answer fs req) = [].
Proof.
  intros Hv.
  assert (HttpServer.is_09 req = true) as H9
    by (unfold HttpServer.is_09; now rewrite Hv).
  pose proof (bare_send_head fs req H9) as Hh.
  unfold Run.answer, HttpServer.handle_one_request.
  destruct (String.eqb (HttpServer.command req) "GET").
  - unfold HttpServer.do_GET.
    destruct (HttpServer.send_head ServeWeb.Handler fs req) as [r [f|]];
      exact Hh.
  - destruct (String.eqb (HttpServer.command req) "HEAD");
      [exact Hh|now apply bare_send_error].
Qed.

Lemma old_requests_answered_bare_witness :
  HttpServer.status_line
    (Run.answer Run.built
       {| HttpServer.command := "GET"; HttpServer.path := "/index.html";
          HttpServer.request_version := "HTTP/0.9";
          HttpServer.if_modified_since := None;
          HttpServer.if_none_match := false |}) = None.
Proof.
  apply (old_requests_answered_bare Run.built
           {| HttpServer.command := "GET"; HttpServer.path := "/index.html";
              HttpServer.request_version := "HTTP/0.9";
              HttpServer.if_modified_since := None;
              HttpServer.if_none_match := false |}).
  reflexivity.
Defined.

(** ** Only files under dist are sent *)

Lemma append_assoc (a b c : string) :
  ((a ++ b) ++ c)%string = (a ++ b ++ c)%string.
Proof. induction a as [|x a IH]; [reflexivity|]. cbn. now rewrite IH. Qed.

Lemma below_snoc (ws : list string) :
  forall d w, Run.below d (ws ++ [w]) = (Run.below d ws ++ "/" ++ w)%string.
Proof.
  induction ws as [|x ws IH]; intros d w; [reflexivity|].
  cbn [app Run.below]. apply IH.
Qed.

(** A path of simple names below a directory is not empty and does not
    end in a slash. *)
Lemma below_tail (ws : list string) :
  forall d,
    forallb Run.simple_name ws = true ->
    d <> ""%string -> PyStr.endswith_char d PyStr.slash = false ->
    Run.below d ws <> ""%string /\
    PyStr.endswith_char (Run.below d ws) PyStr.slash = false.
Proof.
  induction ws as [|w ws IH]; intros d Hs Hd He; [now split|].
  cbn [forallb] in Hs. apply andb_true_iff in Hs. destruct Hs as [Hw Hws].
  cbn [Run.below]. apply IH; [exact Hws| |].
  - destruct d; [contradiction|discriminate].
  - exact (proj2 (join_simple d w Hw Hd He)).
Qed.

Lemma simple_not_absolute (w : string) :
  Run.simple_name w = true -> PyStr.startswith w "/" = false.
Proof.
  unfold Run.simple_name, PyStr.startswith. destruct w as [|a w]; [reflexivity|].
  cbn [Run.has_slash String.prefix].
  destruct (Ascii.ascii_dec "/" a) as [<-|_]; [|reflexivity].
  change (Ascii.eqb "/" PyStr.slash) with true. cbn [orb negb].
  rewrite andb_false_r. discriminate.
Qed.

(** The index file of a directory under dist is under dist. *)
Lemma under_join (p w : string) :
  Run.under "dist" p -> Run.simple_name w = true ->
  Run.under "dist" (PosixPath.join p w).
Proof.
  intros (ws & trailing & Hws & ->) Hw.
  destruct (below_tail ws "dist"%string Hws) as [Hne He];
    [discriminate|reflexivity|].
  exists (ws ++ [w]), false. split.
  - rewrite forallb_app. cbn. now rewrite Hws, Hw.
  - rewrite append_empty_r, below_snoc. destruct trailing.
    + unfold PosixPath.join. rewrite (simple_not_absolute _ Hw).
      rewrite (endswith_append (Run.below "dist" ws) "/" PyStr.slash)
        by discriminate.
      cbn [PyStr.endswith_char]. change (Ascii.eqb "/" PyStr.slash) with true.
      rewrite orb_true_r. apply append_assoc.
    + rewrite append_empty_r. exact (proj1 (join_simple _ w Hw Hne He)).
Qed.

Section Sent.

Variable fs : Fs.node.
Variable req : HttpServer.request.

(** The head of an answer never holds the bytes of a file. *)
Lemma body_send_error (code : Z) (message : string) (c : string) :
  HttpServer.body (HttpServer.send_error ServeWeb.Handler req code message)
  <> HttpServer.Bytes c.
Proof.
  unfold HttpServer.send_error, HttpServer.send_header, HttpServer.write.
  destruct (negb _ && _)%bool; destruct (HttpServer.is_09 req);
    cbn; discriminate.
Qed.

(** What [send_file_head] hands over to be copied is the content of the
    readable regular file at its path. *)
Lemma send_file_head_sent (p : string) :
  (forall c,
     HttpServer.body (fst (HttpServer.send_file_head ServeWeb.Handler fs req p))
     <> HttpServer.Bytes c) /\
  (forall f,
     snd (HttpServer.send_file_head ServeWeb.Handler fs req p) = Some f ->
     exists c t,
       f = HttpServer.Bytes c /\ Fs.stat fs p = Some (Fs.File c t true)).
Proof.
  unfold HttpServer.send_file_head.
  destruct (PyStr.endswith_char p PyStr.slash); cbn [fst snd];
    [split; [intros c; apply body_send_error|discriminate]|].
  unfold Fs.open_rb.
  destruct (Fs.stat fs p) as [[c t [|]|es l w]|]; cbn [fst snd];
    try (split; [intros c'; apply body_send_error|discriminate]).
  destruct (match HttpServer.if_modified_since req with
            | Some ims => _
            | None => false
            end); cbn [fst snd].
  - split; [|discriminate]. intros c'.
    unfold HttpServer.send_response, HttpServer.send_response_only.
    cbn. discriminate.
  - split.
    + intros c'. unfold HttpServer.send_header.
      destruct (HttpServer.is_09 req); cbn; discriminate.
    + intros f [= <-]. eauto.
Qed.

Lemma send_head_sent :
  (forall c,
     HttpServer.body (fst (HttpServer.send_head ServeWeb.Handler fs req))
     <> HttpServer.Bytes c) /\
  (forall c,
     snd (HttpServer.send_head ServeWeb.Handler fs req)
       = Some (HttpServer.Bytes c) ->
     exists p t,
       Run.under "dist" p /\ Fs.stat fs p = Some (Fs.File c t true)).
Proof.
  pose proof (translate_under (HttpServer.path req)) as Hu.
  assert (forall p,
             Run.under "dist" p ->
             (forall c,
                 HttpServer.body
                   (fst (HttpServer.send_file_head ServeWeb.Handler fs req p))
                 <> HttpServer.Bytes c) /\
             (forall c,
                 snd (HttpServer.send_file_head ServeWeb.Handler fs req p)
                 = Some (HttpServer.Bytes c) ->
                 exists q t,
                   Run.under "dist" q /\ Fs.stat fs q = Some (Fs.File c t true)))
    as Hfile.
  { intros p Hp. destruct (send_file_head_sent p) as [H1 H2].
    split; [exact H1|]. intros c Hc.
    destruct (H2 _ Hc) as (c' & t & [= <-] & Hst). eauto. }
  unfold HttpServer.send_head.
  destruct (Fs.isdir fs _); [|now apply Hfile].
  destruct (negb _).
  - cbn [fst snd]. split; [|discriminate]. intros c.
    unfold HttpServer.send_header.
    destruct (HttpServer.is_09 req); cbn; discriminate.
  - destruct (Fs.isfile fs _); [apply Hfile; now apply under_join|].
    destruct (Fs.isfile fs _); [apply Hfile; now apply under_join|].
    unfold HttpServer.list_directory.
    destruct (Fs.listdir fs _); cbn [fst snd].
    + split; [|discriminate]. intros c. cbn. discriminate.
    + split; [intros c; apply body_send_error|discriminate].
Qed.

End Sent.

(** X16: whatever the request, when the answer carries the bytes of a
    file, they are the content of a regular file the server may read
    whose path is dist followed by simple names: no target, with [..] or
    percent escapes or not, makes the server send a file from outside
    dist. *)
Theorem bytes_come_from_dist (fs : Fs.node) (req : HttpServer.request)
        (content : string) :
  HttpServer.body (Run.answer fs req) = HttpServer.Bytes content ->
  exists p mtime,
    Run.under "dist" p /\
    Fs.stat fs p = Some (Fs.File content mtime true).
Proof.
  destruct (send_head_sent fs req) as [Hb Hf].
  unfold Run.answer, HttpServer.handle_one_request.
  destruct (String.eqb (HttpServer.command req) "GET").
  - unfold HttpServer.do_GET.
    destruct (HttpServer.send_head ServeWeb.Handler fs req) as [r [f|]].
    + cbn [HttpServer.write HttpServer.body]. intros ->. now apply Hf.
    + intros H. now destruct (Hb content).
  - destruct (String.eqb (HttpServer.command req) "HEAD").
    + intros H. now destruct (Hb content).
    + intros H. now apply body_send_error in H.
Qed.

Lemma bytes_come_from_dist_witness :
  exists p mtime,
    Run.under "dist" p /\
    Fs.stat Run.built p = Some (Fs.File "js" mtime true).
Proof.
  apply (bytes_come_from_dist Run.built (Run.GET "/assets/../assets/app.js")).
  reflexivity.
Defined.

(** ** Files that are not sent *)




